(** * Manila/Rocky/helper.py: the authenticated-call runtime of [RestHelper]

    A shallow embedding of the session / call layer of the Huawei OceanStor
    Manila driver: [do_call], [_get_user_info], [login], [logout],
    [relogin], [call] and [_get_info_by_range].

    Modelling conventions.
    - A Python method is a computation in the monad [Py St A]: it takes the
      object state, and gives back an outcome (a returned value or a raised
      exception) together with the state it leaves behind.  The state
      survives a raise, as attribute assignments do in Python.
    - The array on the other side of the wire is a function [server] from
      the requests sent so far and the request being sent to a [reply]:
      no response at all (the [requests] library raises), a response that
      [raise_for_status] rejects, or one that it lets through.  The
      requests sent are kept in the ghost field [sent] of the state.
    - A response body that parses is an [envelope]: an [error] object with
      an integer [code] and a [description], and an optional [data] object
      whose members are strings or integers (the dialect of the array).
    - Logging (the LOG calls) changes nothing the program can observe and is left
      out; so is the [log_filter] keyword, which only switches logging.
    - The model is sequential: [call_lock] (reader/writer lock) and
      [semaphore] are acquired and released around the blocks shown in the
      comments and have no other effect on a single thread. *)

From Stdlib Require Import ZArith Ascii String List Bool Lia.
Import ListNotations.
Local Open Scope string_scope.
Local Open Scope Z_scope.
Local Open Scope list_scope.

Set Implicit Arguments.

(** ** Values, envelopes, exceptions *)

(** A member of a JSON object, as far as the runtime looks at one. *)
Inductive value : Type :=
| VStr (s : string)
| VInt (z : Z).

Definition value_eqb (a b : value) : bool :=
  match a, b with
  | VStr s, VStr t => String.eqb s t
  | VInt x, VInt y => Z.eqb x y
  | _, _ => false
  end.

(** Python [==] between two results of [dict.get]: [None] is [None]. *)
Definition py_eqb (a b : option value) : bool :=
  match a, b with
  | None, None => true
  | Some x, Some y => value_eqb x y
  | _, _ => false
  end.

(** A Python dict with string keys; [dict_get] is [d.get(key)]. *)
Definition dict := list (string * value).

Fixpoint dict_get (d : dict) (key : string) : option value :=
  match d with
  | [] => None
  | (k, v) :: rest => if String.eqb k key then Some v else dict_get rest key
  end.

Record error_t : Type := mk_error { code : Z; description : string }.

(** The result envelope [{"error": {"code": .., "description": ..}, "data": ..}];
    [data = None] is an envelope without the [DATA_KEY] member. *)
Record envelope : Type := mk_envelope { error : error_t; data : option dict }.

(** [_error_code(result)]: [result['error']['code']]. *)
Definition _error_code (result : envelope) : Z := code (error result).

(** [result['error']['code'] = c]. *)
Definition set_error_code (result : envelope) (c : Z) : envelope :=
  mk_envelope (mk_error c (description (error result))) (data result).

(** [result.get(constants.DATA_KEY)]: the [data] member, [None] when absent. *)
Definition data_of (result : envelope) : option dict := data result.

(** [result.get(constants.DATA_KEY, {}).get(key)], for a [data] member that
    is absent or an object.  A [data] member that is null, a list or a
    scalar, on which the source raises [AttributeError], has no term in
    [envelope]: what is proved of an answer is proved of answers with
    [data] absent or an object. *)
Definition data_get (result : envelope) (key : string) : option value :=
  match data result with
  | Some d => dict_get d key
  | None => None
  end.

Inductive exn : Type :=
| ShareBackendException (msg : string) (result : option envelope)
| TypeError         (* [None + str], [str + None], [str + int] *)
| AttributeError    (* an attribute of [None] *)
| DecodeError       (* raised by [base64.b64decode(..).decode()] *)
| JSONDecodeError   (* raised by [res.json()] *)
| HTTPError (status_code : Z) (text : string)
                    (* [requests.HTTPError], raised by [res.raise_for_status()] *)
| TransportError (err : string).
                    (* raised by [session.<method>(url, ..)]: no connection, DNS
                       failure, timeout *)

(** ** The monad of methods *)

Inductive outcome (A : Type) : Type :=
| Returns (a : A)
| Raises (e : exn).
Arguments Raises {A} e.

Definition Py (St A : Type) : Type := St -> outcome A * St.

Definition ret {St A} (a : A) : Py St A := fun s => (Returns a, s).

Definition raise {St A} (e : exn) : Py St A := fun s => (Raises e, s).

Definition bind {St A B} (m : Py St A) (k : A -> Py St B) : Py St B :=
  fun s =>
    match m s with
    | (Returns a, s') => k a s'
    | (Raises e, s') => (Raises e, s')
    end.

(** [try: m  except Exception as err: handler(err)]. *)
Definition try_except {St A} (m : Py St A) (handler : exn -> Py St A) : Py St A :=
  fun s =>
    match m s with
    | (Returns a, s') => (Returns a, s')
    | (Raises e, s') => handler e s'
    end.

(** [try: m  except requests.HTTPError as exc: handler(exc)]. *)
Definition try_except_HTTPError {St A} (m : Py St A)
    (handler : Z -> string -> Py St A) : Py St A :=
  fun s =>
    match m s with
    | (Raises (HTTPError status_code text), s') => handler status_code text s'
    | r => r
    end.

Definition get_self {St} : Py St St := fun s => (Returns s, s).

Definition modify {St} (f : St -> St) : Py St unit := fun s => (Returns tt, f s).

Declare Scope py_scope.
Delimit Scope py_scope with py.
Notation "x <- m ;; k" := (bind m (fun x => k))
  (at level 61, m at next level, right associativity) : py_scope.
Notation "m ;; k" := (bind m (fun _ => k))
  (at level 61, right associativity) : py_scope.
Local Open Scope py_scope.

(** ** The wire *)

Inductive http_method : Type := GET | POST | PUT | DELETE.

(** What [session.<method>(url, data=.., timeout=..)] puts on the wire;
    [req_token] is the [iBaseToken] header of the session that sends it. *)
Record request : Type := mk_request {
  req_url : string;
  req_method : http_method;
  req_body : option dict;
  req_timeout : Z;
  req_token : option value
}.

(** A response object [res]. *)
Inductive response : Type :=
| Http_error (status_code : Z) (text : string)
    (* [res.raise_for_status()] raises [HTTPError] with this status code
       and text *)
| Http_ok (body : option envelope).
    (* [res.raise_for_status()] passes; [res.json()] gives [body], and
       raises when the body is not JSON ([None]) *)

(** What comes of sending a request. *)
Inductive reply : Type :=
| Refused (err : string)
    (* no response: the [requests] library raises (connection refused, DNS
       failure, timeout) *)
| Answer (res : response).

Coercion Answer : response >-> reply.

(** A response as it comes off the wire: the status code, the text the
    [requests] library gives the [HTTPError] of that status, and the body
    as [res.json()] reads it. *)
Record http_response : Type := mk_http_response {
  http_status : Z;
  http_error_text : string;
  http_body : option envelope
}.

(** The [requests] library: [Response.raise_for_status] raises [HTTPError]
    for a status from 400 to 599, and for no other status. *)
Definition status_is_rejected (status : Z) : bool :=
  (400 <=? status) && (status <? 600).

(** The response object of a response off the wire. *)
Definition response_of (res : http_response) : response :=
  if status_is_rejected (http_status res)
  then Http_error (http_status res) (http_error_text res)
  else Http_ok (http_body res).

(** ** constants.py

    The module [manila.share.drivers.huawei.constants] is not part of the
    sources; the values the runtime reads from it are a parameter. *)
Record constants : Type := mk_constants {
  SOCKET_TIMEOUT : Z;
  LOGIN_SOCKET_TIMEOUT : Z;
  ERROR_CONNECT_TO_SERVER : Z;
  ERROR_UNAUTHORIZED_TO_SERVER : Z;
  RELOGIN_ERROR_CODE : list Z;
  RELOGIN_ERROR_PASS : Z;
  PWD_EXPIRED_OR_INITIAL : list Z;
  MAX_QUERY_COUNT : Z
}.

(** [x in t] for a tuple of integers. *)
Definition code_in (x : Z) (t : list Z) : bool := existsb (Z.eqb x) t.

(** [v in t] for a value read from a dict and a tuple of integers. *)
Definition value_in (v : option value) (t : list Z) : bool :=
  match v with
  | Some (VInt z) => code_in z t
  | _ => false
  end.

(** ** RestHelper *)

(** [requests.Session()] as the helper uses it: the [iBaseToken] header
    ([headers.get('iBaseToken')]) and the [verify] attribute ([None]
    stands for [False]). *)
Record Session : Type := mk_Session {
  iBaseToken : option value;
  verify : option string
}.

Record RestHelper : Type := mk_RestHelper {
  nas_address : list string;
  nas_username : string;
  nas_password : string;
  ssl_cert_verify : bool;
  ssl_cert_path : string;
  url : option string;
  session : option Session;
  sent : list request  (* ghost: the requests put on the wire, oldest first *)
}.

(** [RestHelper.__init__]. *)
Definition __init__ (nas_address : list string) (nas_username nas_password : string)
    (ssl_cert_verify : bool) (ssl_cert_path : string) : RestHelper :=
  mk_RestHelper nas_address nas_username nas_password ssl_cert_verify
    ssl_cert_path None None [].

Definition set_url (u : option string) (h : RestHelper) : RestHelper :=
  mk_RestHelper (nas_address h) (nas_username h) (nas_password h)
    (ssl_cert_verify h) (ssl_cert_path h) u (session h) (sent h).

Definition set_session (s : option Session) (h : RestHelper) : RestHelper :=
  mk_RestHelper (nas_address h) (nas_username h) (nas_password h)
    (ssl_cert_verify h) (ssl_cert_path h) (url h) s (sent h).

Definition put_on_wire (rq : request) (h : RestHelper) : RestHelper :=
  mk_RestHelper (nas_address h) (nas_username h) (nas_password h)
    (ssl_cert_verify h) (ssl_cert_path h) (url h) (session h) (sent h ++ [rq]).

(** The token the session holds: [self.session.headers.get('iBaseToken')],
    and [None] while there is no session object. *)
Definition token (h : RestHelper) : option value :=
  match session h with
  | Some s => iBaseToken s
  | None => None
  end.

(** Truth value of a string, and of [self.url] ([None] and [""] are false). *)
Definition str_truthy (s : string) : bool := negb (String.eqb s "").

Definition url_truthy (u : option string) : bool :=
  match u with
  | Some s => str_truthy s
  | None => false
  end.

(** Truth value of the [data] argument ([None] and [{}] are false). *)
Definition data_truthy (d : option dict) : bool :=
  match d with
  | Some (_ :: _) => true
  | _ => false
  end.

(** The type of a method of [RestHelper] that returns an [A]. *)
Definition M (A : Type) : Type := Py RestHelper A.

Section Runtime.

Variable K : constants.
Variable server : list request -> request -> reply.
(** [base64.b64decode(s).decode()]; [None] when it raises. *)
Variable b64decode : string -> option string.

(** [init_http_head]. *)
Definition init_http_head : M unit :=
  modify (fun h =>
    set_session
      (Some (mk_Session None
               (if ssl_cert_verify h then Some (ssl_cert_path h) else None)))
      (set_url None h)).

Definition connect_failure : envelope :=
  mk_envelope (mk_error (ERROR_CONNECT_TO_SERVER K) "Connect server error") None.

(** [func(url, **kwargs)], where [func] is
    [getattr(self.session, method.lower())]: the request goes on the wire,
    and the library raises when no response comes. *)
Definition func (rq : request) : M response :=
  fun h =>
    match server (sent h) rq with
    | Refused err => (Raises (TransportError err), put_on_wire rq h)
    | Answer res => (Returns res, put_on_wire rq h)
    end.

(** [res.raise_for_status()]. *)
Definition raise_for_status (res : response) : M unit :=
  match res with
  | Http_error status_code text => raise (HTTPError status_code text)
  | Http_ok _ => ret tt
  end.

(** [res.json()], for a body that is an envelope or is not JSON.  A body
    that is JSON but no envelope, on which [_error_code] raises [KeyError]
    or [TypeError] in the caller, has no term in [response]: what is
    proved of an array is proved of arrays whose JSON bodies are
    envelopes. *)
Definition json (res : response) : M envelope :=
  match res with
  | Http_ok (Some res_json) => ret res_json
  | _ => raise JSONDecodeError
  end.

(** [do_call(postfix_url, method, data, timeout)].  The semaphore is
    acquired before [func(url, **kwargs)] and released in its [finally].
    Each [try] gives [inr] of the envelope its [except] returns, and [inl]
    when the body went through. *)
Definition do_call (postfix_url : string) (method : http_method)
    (data : option dict) (timeout : Z) : M envelope :=
  h <- get_self ;;
  match url h with
  | None => raise TypeError                        (* [self.url + postfix_url] *)
  | Some base =>
    let full_url := (base ++ postfix_url)%string in
    let body := if data_truthy data then data else None in
    match session h with
    | None => raise AttributeError                 (* [getattr(self.session, ..)] *)
    | Some s =>
      let rq := mk_request full_url method body timeout (iBaseToken s) in
      sending <- try_except (res <- func rq ;; ret (inl res))
                   (fun _ => ret (inr connect_failure)) ;;
      match sending with
      | inr failure => ret failure
      | inl res =>
        checking <- try_except_HTTPError (raise_for_status res ;; ret (inl tt))
                      (fun status_code text =>
                         ret (inr (mk_envelope (mk_error status_code text) None))) ;;
        match checking with
        | inr failure => ret failure
        | inl _ => json res
        end
      end
    end
  end.

(** [format_str + '\nresult: %s.']. *)
Definition assert_message (format_str : string) : string :=
  (format_str ++ String (Ascii.ascii_of_nat 10) "result: %s.")%string.

(** [_assert_result(result, format_str)]; the message of the exception is
    [assert_message format_str] filled in with [result], kept here as the
    format and the envelope. *)
Definition _assert_result (result : envelope) (format_str : string) : M unit :=
  if negb (_error_code result =? 0) then
    raise (ShareBackendException
             (assert_message format_str) (Some result))
  else ret tt.

(** [s[4:]]. *)
Definition drop4 (s : string) : string := substring 4 (String.length s - 4) s.

(** One credential of [_get_user_info]. *)
Definition decode_credential (s : string) : M string :=
  if prefix "!$$$" s then
    match b64decode (drop4 s) with
    | Some plain => ret plain
    | None => raise DecodeError
    end
  else ret s.

(** [_get_user_info]. *)
Definition _get_user_info : M (string * string) :=
  h <- get_self ;;
  username <- decode_credential (nas_username h) ;;
  password <- decode_credential (nas_password h) ;;
  ret (username, password).

(** [logout]. *)
Definition logout : M unit :=
  h <- get_self ;;
  if url_truthy (url h) then
    result <- do_call "/sessions" DELETE None (SOCKET_TIMEOUT K) ;;
    _assert_result result "Logout session error."
  else ret tt.

(** The body [data] of the login request. *)
Definition login_data (username password : string) : dict :=
  [("username", VStr username); ("password", VStr password); ("scope", VStr "0")].

(** [self.session.headers.get('iBaseToken')]. *)
Definition get_token : M (option value) :=
  fun h =>
    match session h with
    | Some s => (Returns (iBaseToken s), h)
    | None => (Raises AttributeError, h)
    end.

(** [self.session.headers['iBaseToken'] = tok]. *)
Definition set_token (tok : option value) : M unit :=
  fun h =>
    match session h with
    | Some s => (Returns tt, set_session (Some (mk_Session tok (verify s))) h)
    | None => (Raises AttributeError, h)
    end.

(** [item_url + v], for [v] read from a dict. *)
Definition str_add (item_url : string) (v : option value) : M string :=
  match v with
  | Some (VStr s) => ret (item_url ++ s)%string
  | _ => raise TypeError
  end.

(** The [for item_url in self.nas_address: .. else: ..] loop of [login],
    over the endpoints still to try. *)
Fixpoint login_loop (username password : string) (addresses : list string)
    : M unit :=
  match addresses with
  | [] =>
      (* the [else] of the [for]: no [break] happened *)
      raise (ShareBackendException "All url login fail." None)
  | item_url :: rest =>
      init_http_head ;;
      modify (set_url (Some item_url)) ;;
      result <- do_call "xx/sessions" POST
                  (Some (login_data username password)) (LOGIN_SOCKET_TIMEOUT K) ;;
      if negb (_error_code result =? 0) then
        login_loop username password rest          (* [continue] *)
      else
        new_url <- str_add item_url (data_get result "deviceid") ;;
        modify (set_url (Some new_url)) ;;
        set_token (data_get result "iBaseToken") ;;
        if value_in (data_get result "accountstate") (PWD_EXPIRED_OR_INITIAL K) then
          logout ;;
          raise (ShareBackendException
                   "Password has expired or initial, please change the password."
                   None)
        else ret tt                                 (* [break] *)
  end.

(** [login]. *)
Definition login : M unit :=
  user_info <- _get_user_info ;;
  h <- get_self ;;
  login_loop (fst user_info) (snd user_info) (nas_address h).

(** [relogin(old_token)]. *)
Definition relogin (old_token : option value) : M bool :=
  h <- get_self ;;
  match url h with
  | None =>
      try_except (login ;; ret true) (fun _ => ret false)
  | Some _ =>
      current <- get_token ;;
      if py_eqb old_token current then
        try_except logout (fun _ => ret tt) ;;
        try_except (login ;; ret true) (fun _ => ret false)
      else ret true
  end.

Definition unauthorized : envelope :=
  mk_envelope (mk_error (ERROR_UNAUTHORIZED_TO_SERVER K) "unauthorized.") None.

(** The [timeout] that reaches [do_call] from the keywords of [call]. *)
Definition timeout_of (timeout : option Z) : Z :=
  match timeout with
  | Some t => t
  | None => SOCKET_TIMEOUT K
  end.

(** [call(url, method, data, **kwargs)]; of the keywords, [timeout] is the
    one that reaches the wire.  The first [do_call] and the retry run under
    [call_lock.read_lock()], [relogin] under [call_lock.write_lock()]. *)
Definition call (postfix_url : string) (method : http_method)
    (data : option dict) (timeout : option Z) : M envelope :=
  h <- get_self ;;
  first <- (if url_truthy (url h) then
              old_token <- get_token ;;
              result <- do_call postfix_url method data (timeout_of timeout) ;;
              ret (old_token, result)
            else ret (None, unauthorized)) ;;
  let old_token := fst first in
  let result := snd first in
  if code_in (_error_code result) (RELOGIN_ERROR_CODE K) then
    relogin_result <- relogin old_token ;;
    if relogin_result then
      result <- do_call postfix_url method data (timeout_of timeout) ;;
      if _error_code result =? RELOGIN_ERROR_PASS K then
        ret (set_error_code result 0)
      else ret result
    else ret result
  else ret result.

End Runtime.

(** ** The pager *)

Section Pager.

Variable K : constants.
Variables St P A : Type.

(** [_get_info_by_range(func, params)].  [func] is any callable: it may
    keep state and may raise.  The [while True] loop is unrolled [fuel]
    times; the result is [None] when [fuel] rounds did not reach the
    [break]. *)
Fixpoint range_loop (func : Z -> Z -> P -> Py St (list A)) (params : P)
    (fuel : nat) (range_start : Z) (info_list : list A)
    : Py St (option (list A)) :=
  match fuel with
  | O => ret None
  | S fuel' =>
      let range_end := range_start + MAX_QUERY_COUNT K in
      info <- func range_start range_end params ;;
      let info_list := info_list ++ info in
      if Z.of_nat (length info) <? MAX_QUERY_COUNT K then
        ret (Some info_list)                         (* [break] *)
      else
        range_loop func params fuel' (range_start + MAX_QUERY_COUNT K) info_list
  end.

Definition _get_info_by_range (func : Z -> Z -> P -> Py St (list A))
    (params : P) (fuel : nat) : Py St (option (list A)) :=
  range_loop func params fuel 0 [].

End Pager.

(** ** Operations on the array

    Some of the request builders that sit on [call]: each makes the URL
    and the body, calls, and reads the result code.  The codes they
    compare with come from [constants.py], like those of [constants].  The
    arguments that [_assert_result] only prints are left out with the
    rest of the message. *)
Record catalog_codes : Type := mk_catalog_codes {
  FILESYSTEM_NOT_EXIST : Z;
  SNAPSHOT_NOT_EXIST : Z;
  REPLICATION_CONNECTION_NOT_NORMAL : Z;
  REPLICATION_PAIR_NOT_EXIST : Z
}.

(** [key in d]. *)
Definition dict_has (d : dict) (key : string) : bool :=
  match dict_get d key with
  | Some _ => true
  | None => false
  end.

(** [_is_needed_change_access(share_access, access_level)]. *)
Definition _is_needed_change_access (share_access : dict) (access_level : value)
    : bool :=
  if dict_has share_access "ACCESSVAL"
     && negb (py_eqb (dict_get share_access "ACCESSVAL") (Some access_level))
  then true
  else if dict_has share_access "PERMISSION"
          && negb (py_eqb (dict_get share_access "PERMISSION") (Some access_level))
  then true
  else false.

Section Catalog.

Variable K : constants.
Variable server : list request -> request -> reply.
Variable b64decode : string -> option string.
Variable C : catalog_codes.

(** [create_filesystem(fs_param)]. *)
Definition create_filesystem (fs_param : dict) : M (option value) :=
  result <- call K server b64decode "/filesystem" POST (Some fs_param) None ;;
  _assert_result result "Create filesystem %s error." ;;
  ret (data_get result "ID").

(** [delete_filesystem(params)]. *)
Definition delete_filesystem (params : dict) : M unit :=
  result <- call K server b64decode "/filesystem" DELETE (Some params) None ;;
  if _error_code result =? FILESYSTEM_NOT_EXIST C then ret tt
  else _assert_result result "Delete filesystem %s error.".

(** [get_fs_info_by_id(fs_id)]. *)
Definition get_fs_info_by_id (fs_id : string) : M (option dict) :=
  result <- call K server b64decode ("/filesystem/" ++ fs_id)%string GET None None ;;
  if _error_code result =? FILESYSTEM_NOT_EXIST C then ret None
  else
    _assert_result result "Get filesystem by id %s error." ;;
    ret (data result).

(** [delete_snapshot(snap_id)]. *)
Definition delete_snapshot (snap_id : string) : M unit :=
  result <- call K server b64decode ("/FSSNAPSHOT/" ++ snap_id)%string DELETE
              None None ;;
  if _error_code result =? SNAPSHOT_NOT_EXIST C then ret tt
  else _assert_result result "Delete snapshot %s error.".

(** The URL of [delete_replication_pair]. *)
Definition replication_pair_url (pair_id : string) (is_force_delete : bool)
    : string :=
  ("/REPLICATIONPAIR/" ++ pair_id ++ "?ISLOCALDELETE="
   ++ (if is_force_delete then "true" else "false"))%string.

(** [delete_replication_pair(pair_id, is_force_delete)].  The method calls
    itself; [fuel] bounds the depth of the calls, and the result is [None]
    when [fuel] nested calls did not come to a [return] (Python gives up
    at its recursion limit). *)
Fixpoint delete_replication_pair (fuel : nat) (pair_id : string)
    (is_force_delete : bool) : M (option unit) :=
  match fuel with
  | O => ret None
  | S fuel' =>
      result <- call K server b64decode
                  (replication_pair_url pair_id is_force_delete) DELETE None None ;;
      if _error_code result =? REPLICATION_CONNECTION_NOT_NORMAL C then
        delete_replication_pair fuel' pair_id true
      else if _error_code result =? REPLICATION_PAIR_NOT_EXIST C then
        ret (Some tt)
      else
        _assert_result result "Delete replication pair %s error." ;;
        ret (Some tt)
  end.

End Catalog.

Section ShareAccess.

Variables St A : Type.
(** The two methods [get_all_share_access] calls, as any callables on a
    state: [_get_share_access_count] and [_get_share_access_by_range]. *)
Variable _get_share_access_count : string -> string -> option value -> Py St Z.
Variable _get_share_access_by_range :
  string -> string -> Z * Z -> option value -> Py St (list A).

(** The [for i in range(..)] loop of [get_all_share_access], over the
    indices still to come. *)
Fixpoint share_access_loop (share_id share_proto : string)
    (vstore_id : option value) (indices : list Z) (all_accesses : list A)
    : Py St (list A) :=
  match indices with
  | [] => ret all_accesses
  | i :: rest =>
      let query_range := (i * 100, (i + 1) * 100) in
      accesses <- _get_share_access_by_range share_id share_proto query_range
                    vstore_id ;;
      share_access_loop share_id share_proto vstore_id rest
        (all_accesses ++ accesses)
  end.

(** [range(n)]. *)
Definition py_range (n : Z) : list Z := map Z.of_nat (seq 0 (Z.to_nat n)).

(** [get_all_share_access(share_id, share_proto, vstore_id)]. *)
Definition get_all_share_access (share_id share_proto : string)
    (vstore_id : option value) : Py St (list A) :=
  count <- _get_share_access_count share_id share_proto vstore_id ;;
  if count <=? 0 then ret []
  else
    share_access_loop share_id share_proto vstore_id
      (py_range (count / 100 + 1)) [].

End ShareAccess.

(** ** The vocabulary of the pager statements *)

(** The windows the pager asks for: [n] of them, each [size] wide, from
    [range_start] on. *)
Fixpoint windows (size range_start : Z) (n : nat) : list (Z * Z) :=
  match n with
  | O => []
  | S n' => (range_start, range_start + size) :: windows size (range_start + size) n'
  end.

(** A page function that answers from [page] and notes each window it is
    asked for. *)
Definition recording {P A : Type} (page : Z -> Z -> P -> list A)
    : Z -> Z -> P -> Py (list (Z * Z)) (list A) :=
  fun range_start range_end params asked =>
    (Returns (page range_start range_end params),
     asked ++ [(range_start, range_end)]).

(** [dataset[range_start:range_end]] for [0 <= range_start <= range_end]. *)
Definition slice {A : Type} (dataset : list A) (range_start range_end : Z) : list A :=
  firstn (Z.to_nat (range_end - range_start)) (skipn (Z.to_nat range_start) dataset).

(** The page of a window. *)
Definition page_of {P A : Type} (page : Z -> Z -> P -> list A) (params : P)
    (w : Z * Z) : list A :=
  page (fst w) (snd w) params.

(** A count method that reports [count] and touches nothing. *)
Definition reporting {St : Type} (count : Z)
    : string -> string -> option value -> Py St Z :=
  fun _ _ _ => ret count.

(** A range method that answers from [page] and notes each range it is
    asked for. *)
Definition recording_range {A : Type} (page : Z * Z -> list A)
    : string -> string -> Z * Z -> option value -> Py (list (Z * Z)) (list A) :=
  fun _ _ query_range _ asked => (Returns (page query_range), asked ++ [query_range]).

(** ** Fixtures for the examples *)

(** Values for [constants], chosen for the examples. *)
Definition sample_constants : constants :=
  mk_constants 52 4 (-403) (-401) [-403; -401] 1077949069 [3; 4] 100.

(** An identity stand-in for the base64 decoder. *)
Definition sample_b64decode (s : string) : option string := Some s.

(** A freshly constructed helper with one endpoint. *)
Definition sample_helper : RestHelper :=
  __init__ ["https://a/"] "user" "secret" false "".

(** A helper that holds a session on endpoint [https://a/], device [dev]. *)
Definition logged_in_helper : RestHelper :=
  mk_RestHelper ["https://a/"] "user" "secret" false ""
    (Some "https://a/dev") (Some (mk_Session (Some (VStr "tok0")) None)) [].

Definition envelope_of_code (c : Z) : envelope :=
  mk_envelope (mk_error c "") None.

(** An array that cannot be reached. *)
Definition server_down : list request -> request -> reply :=
  fun _ _ => Refused "connection refused".

(** An array that answers every request with the same error code. *)
Definition server_code (c : Z) : list request -> request -> reply :=
  fun _ _ => Http_ok (Some (envelope_of_code c)).

(** An array that answers every request with status 304 and an envelope
    of code 0 as body. *)
Definition server_not_modified : list request -> request -> reply :=
  fun _ _ =>
    response_of (mk_http_response 304 "304 Not Modified" (Some (envelope_of_code 0))).

(** An array that answers every request with status 404. *)
Definition server_not_found : list request -> request -> reply :=
  fun _ _ => response_of (mk_http_response 404 "404 Client Error" None).

(** An array that answers with text that is not JSON. *)
Definition server_garbled : list request -> request -> reply :=
  fun _ _ => Http_ok None.

(** The answer to a login that is accepted: device [dev], token [tok1]. *)
Definition welcome (accountstate : Z) : envelope :=
  mk_envelope (mk_error 0 "")
    (Some [("deviceid", VStr "dev"); ("iBaseToken", VStr "tok1");
           ("accountstate", VInt accountstate)]).

(** An array that accepts every login with account state [accountstate]
    and answers everything else with code 0. *)
Definition server_welcoming (accountstate : Z) : list request -> request -> reply :=
  fun _ rq =>
    match req_method rq with
    | POST => Http_ok (Some (welcome accountstate))
    | _ => Http_ok (Some (envelope_of_code 0))
    end.

(** An array whose session has expired: the first request it sees is
    answered with code -401; after that a session-delete is answered with
    code 0, a login is accepted, and anything else gets the code
    [RELOGIN_ERROR_PASS] of [sample_constants]. *)
Definition server_session_expired : list request -> request -> reply :=
  fun history rq =>
    match history with
    | [] => Http_ok (Some (envelope_of_code (-401)))
    | _ =>
        match req_method rq with
        | POST => Http_ok (Some (welcome 1))
        | DELETE => Http_ok (Some (envelope_of_code 0))
        | _ => Http_ok (Some (envelope_of_code 1077949069))
        end
    end.

(** An array on which only the endpoint [https://c/] accepts a login. *)
Definition server_only_c : list request -> request -> reply :=
  fun _ rq =>
    if String.eqb (req_url rq) "https://c/xx/sessions"
    then Http_ok (Some (welcome 1))
    else Http_ok (Some (envelope_of_code 1)).

(** A freshly constructed helper with four endpoints. *)
Definition four_endpoints : RestHelper :=
  __init__ ["https://a/"; "https://b/"; "https://c/"; "https://d/"]
    "user" "secret" false "".

(** A decoder that decodes nothing. *)
Definition failing_b64decode (s : string) : option string := None.

(** A freshly constructed helper whose user name carries the prefix. *)
Definition obfuscated_helper : RestHelper :=
  __init__ ["https://a/"] "!$$$dXNlcg==" "secret" false "".

(** Values for [catalog_codes], chosen for the examples. *)
Definition sample_codes : catalog_codes :=
  mk_catalog_codes 1073752065 1073754118 1077937923 1077937724.

(** An array that answers everything with code 0 and the id [42]. *)
Definition server_creating : list request -> request -> reply :=
  fun _ _ => Http_ok (Some (mk_envelope (mk_error 0 "") (Some [("ID", VStr "42")]))).

(** Like [server_session_expired], but only a [POST] to the session URL
    is a login. *)
Definition server_renewing : list request -> request -> reply :=
  fun history rq =>
    match history with
    | [] => Http_ok (Some (envelope_of_code (-401)))
    | _ =>
        if String.eqb (req_url rq) "https://a/xx/sessions"
        then Http_ok (Some (welcome 1))
        else match req_method rq with
             | DELETE => Http_ok (Some (envelope_of_code 0))
             | _ => Http_ok (Some (envelope_of_code 1077949069))
             end
    end.

(** An array that deletes replication pair 7 only on a local deletion. *)
Definition server_pair_unlinked : list request -> request -> reply :=
  fun _ rq =>
    if String.eqb (req_url rq)
         "https://a/dev/REPLICATIONPAIR/7?ISLOCALDELETE=true"
    then Http_ok (Some (envelope_of_code 0))
    else Http_ok (Some (envelope_of_code 1077937923)).

Ltac py_unfold :=
  unfold bind, ret, raise, try_except, get_self, modify in *.

(** ** The runtime verified *)

Section RuntimeFacts.

Variable K : constants.
Variable server : list request -> request -> reply.
Variable b64decode : string -> option string.

(** *** The vocabulary of the statements *)

(** The envelope [do_call] makes of a reply; [None] when [res.json()] raises. *)
Definition reply_envelope (r : reply) : option envelope :=
  match r with
  | Refused _ => Some (connect_failure K)
  | Answer (Http_error status_code text) =>
      Some (mk_envelope (mk_error status_code text) None)
  | Answer (Http_ok body) => body
  end.

(** The request [do_call] sends from base URL [base] with token [tok]. *)
Definition outgoing (base : string) (tok : option value) (postfix_url : string)
    (method : http_method) (data : option dict) (timeout : Z) : request :=
  mk_request (base ++ postfix_url)%string method
    (if data_truthy data then data else None) timeout tok.

(** The session-delete request of [logout]. *)
Definition logout_request (base : string) (tok : option value) : request :=
  outgoing base tok "/sessions" DELETE None (SOCKET_TIMEOUT K).

(** The session object [init_http_head] creates. *)
Definition fresh_session (h : RestHelper) : Session :=
  mk_Session None (if ssl_cert_verify h then Some (ssl_cert_path h) else None).

(** The login request for an endpoint: sent without a token. *)
Definition login_request (username password item_url : string) : request :=
  mk_request (item_url ++ "xx/sessions")%string POST
    (Some (login_data username password)) (LOGIN_SOCKET_TIMEOUT K) None.

(** The helper after the login request to [item_url] has gone out. *)
Definition attempted (username password item_url : string) (h : RestHelper)
    : RestHelper :=
  put_on_wire (login_request username password item_url)
    (set_url (Some item_url) (set_session (Some (fresh_session h)) (set_url None h))).

(** The helper after the assignments that follow a login reply with code 0. *)
Definition signed_in (item_url deviceid : string) (tok : option value)
    (h1 : RestHelper) : RestHelper :=
  set_session (Some (mk_Session tok (verify (fresh_session h1))))
    (set_url (Some (item_url ++ deviceid)%string) h1).

(** The helper after a login request has gone out to each of [failing]. *)
Definition after_failures (username password : string) (failing : list string)
    (h : RestHelper) : RestHelper :=
  fold_left (fun h0 item_url => attempted username password item_url h0) failing h.

(** Every endpoint of [failing], tried in order from [h], answers the login
    request with an envelope whose code is not 0. *)
Definition all_fail (username password : string) (failing : list string)
    (h : RestHelper) : Prop :=
  forall before item_url after,
    failing = before ++ item_url :: after ->
    exists result,
      reply_envelope
        (server (sent h ++ map (login_request username password) before)
                (login_request username password item_url)) = Some result
      /\ _error_code result <> 0.

(** The boolean [relogin] makes of a [login]. *)
Definition login_as_bool (r : outcome unit * RestHelper) : outcome bool * RestHelper :=
  match r with
  | (Returns _, h') => (Returns true, h')
  | (Raises _, h') => (Returns false, h')
  end.

(** What the retry of [call] returns for the envelope [result] of the
    second [do_call]. *)
Definition retry_result (result : envelope) : envelope :=
  if _error_code result =? RELOGIN_ERROR_PASS K then set_error_code result 0
  else result.

(** The block of [call] below the first [with self.call_lock.read_lock()],
    entered with [old_token] and [result] and spelled out by outcome. *)
Definition call_tail (postfix_url : string) (method : http_method)
    (data : option dict) (timeout : option Z) (old_token : option value)
    (result : envelope) (h1 : RestHelper) : outcome envelope * RestHelper :=
  if code_in (_error_code result) (RELOGIN_ERROR_CODE K) then
    match relogin K server b64decode old_token h1 with
    | (Returns true, h2) =>
        match do_call K server postfix_url method data (timeout_of K timeout) h2 with
        | (Returns r2, h3) => (Returns (retry_result r2), h3)
        | (Raises e, h3) => (Raises e, h3)
        end
    | (Returns false, h2) => (Returns result, h2)
    | (Raises e, h2) => (Raises e, h2)
    end
  else (Returns result, h1).

(** Base URL and token are both held or both missing. *)
Definition both_or_neither (h : RestHelper) : Prop :=
  url h = None <-> token h = None.

(** A helper that holds a token holds a base URL. *)
Definition token_needs_url (h : RestHelper) : Prop :=
  token h <> None -> url h <> None.

(** A credential that carries the prefix and whose tail does not decode. *)
Definition undecodable (credential : string) : Prop :=
  prefix "!$$$" credential = true /\ b64decode (drop4 credential) = None.

(** A helper with a base URL has a session object. *)
Definition has_session_object (h : RestHelper) : Prop :=
  url h <> None -> session h <> None.

(** An array that cannot be reached, whatever is sent and whenever. *)
Definition unreachable : Prop :=
  forall history rq, exists err, server history rq = Refused err.

(** *** do_call and call *)

Lemma do_call_eq h base s postfix_url method data timeout :
  url h = Some base -> session h = Some s ->
  let rq := outgoing base (iBaseToken s) postfix_url method data timeout in
  do_call K server postfix_url method data timeout h =
    (match reply_envelope (server (sent h) rq) with
     | Some r => Returns r
     | None => Raises JSONDecodeError
     end, put_on_wire rq h).
Proof.
  intros Hu Hs rq. subst rq.
  unfold do_call, outgoing, func, try_except, try_except_HTTPError. py_unfold.
  rewrite Hu, Hs. cbv zeta.
  destruct (server _ _) as [err | [c t | [r |]]]; reflexivity.
Qed.

(** [do_call] assigns no attribute of the helper. *)
Lemma do_call_frame postfix_url method data timeout h o h' :
  do_call K server postfix_url method data timeout h = (o, h') ->
  url h' = url h /\ session h' = session h /\ nas_address h' = nas_address h
  /\ nas_username h' = nas_username h /\ nas_password h' = nas_password h
  /\ ssl_cert_verify h' = ssl_cert_verify h /\ ssl_cert_path h' = ssl_cert_path h.
Proof.
  intros H.
  destruct (url h) as [base |] eqn:Hu;
    [| unfold do_call in H; py_unfold; rewrite Hu in H; inversion H; subst; auto 10].
  destruct (session h) as [s |] eqn:Hs;
    [| unfold do_call in H; py_unfold; rewrite Hu, Hs in H; inversion H; subst;
       auto 10].
  rewrite (do_call_eq _ _ _ _ _ Hu Hs) in H. inversion H; subst. simpl. auto 10.
Qed.

Lemma do_call_raises postfix_url method data timeout h e h' :
  do_call K server postfix_url method data timeout h = (Raises e, h') ->
  e = TypeError \/ e = AttributeError \/ e = JSONDecodeError.
Proof.
  intros H.
  destruct (url h) as [base |] eqn:Hu;
    [| unfold do_call in H; py_unfold; rewrite Hu in H; inversion H; auto].
  destruct (session h) as [s |] eqn:Hs;
    [| unfold do_call in H; py_unfold; rewrite Hu, Hs in H; inversion H; auto].
  rewrite (do_call_eq _ _ _ _ _ Hu Hs) in H. cbv zeta in H.
  destruct (reply_envelope _); inversion H; auto.
Qed.

Lemma relogin_raises old_token h e h' :
  relogin K server b64decode old_token h = (Raises e, h') -> e = AttributeError.
Proof.
  unfold relogin. py_unfold. unfold get_token.
  destruct (url h) as [base |].
  - destruct (session h) as [s |]; [| intros H; inversion H; reflexivity].
    destruct (py_eqb old_token (iBaseToken s)); [| intros H; inversion H].
    destruct (logout K server h) as [[[] | e0] h0].
    + destruct (login K server b64decode h0) as [[[] | e1] h1];
        intros H; inversion H.
    + destruct (login K server b64decode h0) as [[[] | e1] h1];
        intros H; inversion H.
  - destruct (login K server b64decode h) as [[[] | e1] h1];
      intros H; inversion H.
Qed.

Lemma call_without_url postfix_url method data timeout h :
  url_truthy (url h) = false ->
  call K server b64decode postfix_url method data timeout h =
  call_tail postfix_url method data timeout None (unauthorized K) h.
Proof.
  intros Hu. unfold call, call_tail, retry_result. py_unfold. rewrite Hu. simpl.
  destruct (code_in _ _); [| reflexivity].
  destruct (relogin K server b64decode None h) as [[[] | e] h2]; try reflexivity.
  destruct (do_call K server postfix_url method data (timeout_of K timeout) h2)
    as [[r2 | e] h3]; [| reflexivity].
  destruct (_error_code r2 =? RELOGIN_ERROR_PASS K); reflexivity.
Qed.

Lemma call_with_url postfix_url method data timeout h s :
  url_truthy (url h) = true -> session h = Some s ->
  call K server b64decode postfix_url method data timeout h =
  match do_call K server postfix_url method data (timeout_of K timeout) h with
  | (Returns r1, h1) =>
      call_tail postfix_url method data timeout (iBaseToken s) r1 h1
  | (Raises e, h1) => (Raises e, h1)
  end.
Proof.
  intros Hu Hs. unfold call, call_tail, retry_result. py_unfold.
  rewrite Hu. unfold get_token. rewrite Hs.
  destruct (do_call K server postfix_url method data (timeout_of K timeout) h)
    as [[r1 | e] h1]; [| reflexivity].
  simpl. destruct (code_in _ _); [| reflexivity].
  destruct (relogin K server b64decode (iBaseToken s) h1) as [[[] | e] h2];
    try reflexivity.
  destruct (do_call K server postfix_url method data (timeout_of K timeout) h2)
    as [[r2 | e] h3]; [| reflexivity].
  destruct (_error_code r2 =? RELOGIN_ERROR_PASS K); reflexivity.
Qed.

Lemma call_without_session postfix_url method data timeout h :
  url_truthy (url h) = true -> session h = None ->
  call K server b64decode postfix_url method data timeout h =
  (Raises AttributeError, h).
Proof.
  intros Hu Hs. unfold call. py_unfold. rewrite Hu. unfold get_token.
  rewrite Hs. reflexivity.
Qed.

Lemma call_tail_raises postfix_url method data timeout old_token result h1 e h' :
  call_tail postfix_url method data timeout old_token result h1 = (Raises e, h') ->
  e = TypeError \/ e = AttributeError \/ e = JSONDecodeError.
Proof.
  unfold call_tail. destruct (code_in _ _); [| intros H; inversion H].
  destruct (relogin K server b64decode old_token h1) as [[[] | e0] h2] eqn:Hre.
  - destruct (do_call K server postfix_url method data (timeout_of K timeout) h2)
      as [[r2 | e2] h3] eqn:Hdc; intros H; inversion H; subst.
    eapply do_call_raises; eauto.
  - intros H; inversion H.
  - intros H; inversion H; subst. right; left. eapply relogin_raises; eauto.
Qed.

Lemma call_raises postfix_url method data timeout h e h' :
  call K server b64decode postfix_url method data timeout h = (Raises e, h') ->
  e = TypeError \/ e = AttributeError \/ e = JSONDecodeError.
Proof.
  destruct (url_truthy (url h)) eqn:Hu.
  - destruct (session h) as [s |] eqn:Hs.
    + rewrite (call_with_url _ _ _ _ _ Hu Hs).
      destruct (do_call K server postfix_url method data (timeout_of K timeout) h)
        as [[r1 | e1] h1] eqn:Hdc.
      * apply call_tail_raises.
      * intros H; inversion H; subst. eapply do_call_raises; eauto.
    + rewrite (call_without_session _ _ _ _ _ Hu Hs).
      intros H; inversion H; auto.
  - rewrite (call_without_url _ _ _ _ _ Hu). apply call_tail_raises.
Qed.

(** *** logout *)

Lemma assert_result_eq (result : envelope) format_str (h : RestHelper) :
  _assert_result result format_str h =
  if _error_code result =? 0 then (Returns tt, h)
  else (Raises (ShareBackendException
                  (assert_message format_str)
                  (Some result)), h).
Proof.
  unfold _assert_result. destruct (_error_code result =? 0); reflexivity.
Qed.

Lemma logout_eq h :
  logout K server h =
  if url_truthy (url h) then
    match do_call K server "/sessions" DELETE None (SOCKET_TIMEOUT K) h with
    | (Returns result, h') => _assert_result result "Logout session error." h'
    | (Raises e, h') => (Raises e, h')
    end
  else (Returns tt, h).
Proof.
  unfold logout. py_unfold. destruct (url_truthy (url h)); reflexivity.
Qed.

(** [logout] assigns no attribute of the helper. *)
Lemma logout_frame h o h' :
  logout K server h = (o, h') ->
  url h' = url h /\ session h' = session h /\ nas_address h' = nas_address h
  /\ nas_username h' = nas_username h /\ nas_password h' = nas_password h
  /\ ssl_cert_verify h' = ssl_cert_verify h /\ ssl_cert_path h' = ssl_cert_path h.
Proof.
  rewrite logout_eq. destruct (url_truthy (url h)).
  - destruct (do_call K server "/sessions" DELETE None (SOCKET_TIMEOUT K) h)
      as [[r | e] h1] eqn:Hdc.
    + rewrite assert_result_eq. destruct (_error_code r =? 0);
        intros H; inversion H; subst; eapply do_call_frame; eauto.
    + intros H; inversion H; subst. eapply do_call_frame; eauto.
  - intros H; inversion H; subst. auto 10.
Qed.

(** *** login *)

(** One round of the loop of [login], by outcome. *)
Lemma login_loop_cons username password item_url rest h :
  login_loop K server username password (item_url :: rest) h =
  let h1 := attempted username password item_url h in
  match reply_envelope (server (sent h) (login_request username password item_url)) with
  | None => (Raises JSONDecodeError, h1)
  | Some result =>
      if negb (_error_code result =? 0) then
        login_loop K server username password rest h1
      else
        match data_get result "deviceid" with
        | Some (VStr deviceid) =>
            let h2 := signed_in item_url deviceid (data_get result "iBaseToken") h1 in
            if value_in (data_get result "accountstate") (PWD_EXPIRED_OR_INITIAL K)
            then
              match logout K server h2 with
              | (Returns _, h3) =>
                  (Raises (ShareBackendException
                     "Password has expired or initial, please change the password."
                     None), h3)
              | (Raises e, h3) => (Raises e, h3)
              end
            else (Returns tt, h2)
        | _ => (Raises TypeError, h1)
        end
  end.
Proof.
  cbn [login_loop]. unfold init_http_head. py_unfold.
  change (set_session _ (set_url None h)) with
    (set_session (Some (fresh_session h)) (set_url None h)).
  set (h0 := set_url (Some item_url) (set_session (Some (fresh_session h)) (set_url None h))).
  assert (Hdc := @do_call_eq h0 item_url (fresh_session h) "xx/sessions" POST
                   (Some (login_data username password)) (LOGIN_SOCKET_TIMEOUT K)
                   eq_refl eq_refl).
  cbv zeta in Hdc. rewrite Hdc. clear Hdc.
  change (outgoing item_url (iBaseToken (fresh_session h)) "xx/sessions" POST
            (Some (login_data username password)) (LOGIN_SOCKET_TIMEOUT K))
    with (login_request username password item_url).
  change (sent h0) with (sent h).
  change (put_on_wire (login_request username password item_url) h0)
    with (attempted username password item_url h).
  cbv zeta.
  destruct (reply_envelope (server (sent h) (login_request username password item_url)))
    as [result |]; [| reflexivity].
  destruct (negb (_error_code result =? 0)); [reflexivity |].
  unfold str_add.
  destruct (data_get result "deviceid") as [[deviceid | z] |]; try reflexivity.
  py_unfold. unfold set_token. cbn [session set_url attempted put_on_wire set_session].
  change (set_session _ (set_url (Some (item_url ++ deviceid)%string)
            (attempted username password item_url h)))
    with (signed_in item_url deviceid (data_get result "iBaseToken")
            (attempted username password item_url h)).
  destruct (value_in _ _); [| reflexivity].
  destruct (logout K server _) as [[[] | e] h3]; reflexivity.
Qed.

Lemma login_loop_returns username password addresses :
  forall h h',
  login_loop K server username password addresses h = (Returns tt, h') ->
  exists base s, url h' = Some base /\ session h' = Some s.
Proof.
  induction addresses as [| item_url rest IH]; intros h h' H.
  - discriminate H.
  - rewrite login_loop_cons in H. cbv zeta in H.
    destruct (reply_envelope _) as [result |]; [| discriminate H].
    destruct (negb (_error_code result =? 0)); [eapply IH; eassumption |].
    destruct (data_get result "deviceid") as [[deviceid | z] |];
      try discriminate H.
    destruct (value_in _ _).
    + destruct (logout K server _) as [[[] | e] h3]; discriminate H.
    + inversion H; subst. unfold signed_in. simpl. eauto.
Qed.

Lemma decode_credential_state c (h : RestHelper) :
  snd (decode_credential b64decode c h) = h.
Proof.
  unfold decode_credential. destruct (prefix "!$$$" c); [| reflexivity].
  destruct (b64decode (drop4 c)); reflexivity.
Qed.

Lemma get_user_info_state h : snd (_get_user_info b64decode h) = h.
Proof.
  unfold _get_user_info. py_unfold.
  pose proof (decode_credential_state (nas_username h) h) as H1.
  destruct (decode_credential b64decode (nas_username h) h) as [[u | e] h1];
    simpl in H1; subst h1; [| reflexivity].
  pose proof (decode_credential_state (nas_password h) h) as H2.
  destruct (decode_credential b64decode (nas_password h) h) as [[p | e] h2];
    simpl in H2; subst h2; reflexivity.
Qed.

Lemma login_eq h :
  login K server b64decode h =
  match fst (_get_user_info b64decode h) with
  | Returns user_info =>
      login_loop K server (fst user_info) (snd user_info) (nas_address h) h
  | Raises e => (Raises e, h)
  end.
Proof.
  unfold login. py_unfold. pose proof (get_user_info_state h) as Hs.
  destruct (_get_user_info b64decode h) as [[ui | e] h1]; simpl in *; subst h1;
    reflexivity.
Qed.

Lemma login_returns h h' :
  login K server b64decode h = (Returns tt, h') ->
  exists base s, url h' = Some base /\ session h' = Some s.
Proof.
  rewrite login_eq. destruct (fst (_get_user_info b64decode h)) as [ui | e].
  - apply login_loop_returns.
  - discriminate.
Qed.

(** *** relogin *)

Lemma value_eqb_eq a b : value_eqb a b = true <-> a = b.
Proof.
  destruct a as [s | x], b as [t | y]; simpl; split; intros H;
    try discriminate; try congruence.
  - apply String.eqb_eq in H. congruence.
  - inversion H; subst. apply String.eqb_refl.
  - apply Z.eqb_eq in H. congruence.
  - inversion H; subst. apply Z.eqb_refl.
Qed.

Lemma py_eqb_eq a b : py_eqb a b = true <-> a = b.
Proof.
  destruct a as [x |], b as [y |]; simpl; split; intros H;
    try discriminate; try reflexivity.
  - apply value_eqb_eq in H. congruence.
  - inversion H; subst. apply value_eqb_eq. reflexivity.
Qed.

Lemma relogin_without_url old_token h :
  url h = None ->
  relogin K server b64decode old_token h =
  login_as_bool (login K server b64decode h).
Proof.
  intros Hu. unfold relogin, login_as_bool. py_unfold. rewrite Hu.
  destruct (login K server b64decode h) as [[[] | e] h']; reflexivity.
Qed.

Lemma relogin_same_token old_token h base s :
  url h = Some base -> session h = Some s -> py_eqb old_token (iBaseToken s) = true ->
  relogin K server b64decode old_token h =
  login_as_bool (login K server b64decode (snd (logout K server h))).
Proof.
  intros Hu Hs Ht. unfold relogin, login_as_bool. py_unfold. rewrite Hu.
  unfold get_token. rewrite Hs, Ht.
  destruct (logout K server h) as [[[] | e0] h0]; simpl;
    destruct (login K server b64decode h0) as [[[] | e] h']; reflexivity.
Qed.

Lemma relogin_other_token old_token h base s :
  url h = Some base -> session h = Some s -> py_eqb old_token (iBaseToken s) = false ->
  relogin K server b64decode old_token h = (Returns true, h).
Proof.
  intros Hu Hs Ht. unfold relogin. py_unfold. rewrite Hu.
  unfold get_token. rewrite Hs, Ht. reflexivity.
Qed.

Lemma relogin_without_session old_token h base :
  url h = Some base -> session h = None ->
  relogin K server b64decode old_token h = (Raises AttributeError, h).
Proof.
  intros Hu Hs. unfold relogin. py_unfold. rewrite Hu.
  unfold get_token. rewrite Hs. reflexivity.
Qed.

Lemma relogin_true_session old_token h h' :
  relogin K server b64decode old_token h = (Returns true, h') ->
  exists base s, url h' = Some base /\ session h' = Some s.
Proof.
  assert (Hlogin : forall h0,
    login_as_bool (login K server b64decode h0) = (Returns true, h') ->
    exists base s, url h' = Some base /\ session h' = Some s).
  { intros h0 H. unfold login_as_bool in H.
    destruct (login K server b64decode h0) as [[[] | e] h1] eqn:Hl;
      inversion H; subst. eapply login_returns; eauto. }
  destruct (url h) as [base |] eqn:Hu.
  - destruct (session h) as [s |] eqn:Hs.
    + destruct (py_eqb old_token (iBaseToken s)) eqn:Ht.
      * rewrite (relogin_same_token _ _ Hu Hs Ht). apply Hlogin.
      * rewrite (relogin_other_token _ _ Hu Hs Ht).
        intros H; inversion H; subst. eauto.
    + rewrite (relogin_without_session _ _ Hu Hs). discriminate.
  - rewrite (relogin_without_url _ _ Hu). apply Hlogin.
Qed.

(** *** Endpoints that fail *)

Lemma all_fail_tail username password item_url failing h :
  all_fail username password (item_url :: failing) h ->
  all_fail username password failing (attempted username password item_url h).
Proof.
  intros H before e after Heq.
  destruct (H (item_url :: before) e after) as (r & Hr & Hc).
  { rewrite Heq. reflexivity. }
  exists r. split; [| assumption].
  simpl. rewrite <- app_assoc. exact Hr.
Qed.

Lemma login_loop_failures username password failing rest :
  forall h,
  all_fail username password failing h ->
  login_loop K server username password (failing ++ rest) h =
  login_loop K server username password rest
    (after_failures username password failing h).
Proof.
  induction failing as [| item_url failing IH]; intros h Hfail.
  - reflexivity.
  - change ((item_url :: failing) ++ rest) with (item_url :: (failing ++ rest)).
    rewrite login_loop_cons. cbv zeta.
    destruct (Hfail [] item_url failing eq_refl) as (r & Hr & Hc).
    simpl in Hr. rewrite app_nil_r in Hr. rewrite Hr.
    apply Z.eqb_neq in Hc. rewrite Hc. simpl negb. cbv iota.
    rewrite IH by (apply all_fail_tail; assumption).
    reflexivity.
Qed.

Lemma after_failures_sent username password failing :
  forall h,
  sent (after_failures username password failing h) =
  sent h ++ map (login_request username password) failing.
Proof.
  induction failing as [| e failing IH]; intros h.
  - simpl. rewrite app_nil_r. reflexivity.
  - change (after_failures username password (e :: failing) h)
      with (after_failures username password failing
              (attempted username password e h)).
    rewrite IH.
    change (sent (attempted username password e h))
      with (sent h ++ [login_request username password e]).
    rewrite <- app_assoc. reflexivity.
Qed.

Lemma after_failures_last username password failing e :
  forall h,
  let h' := after_failures username password (failing ++ [e]) h in
  url h' = Some e /\ token h' = None.
Proof.
  intros h. cbv zeta. unfold after_failures. rewrite fold_left_app. simpl.
  split; reflexivity.
Qed.

(** The loop of [login] when the endpoint after [failing] answers with
    code 0 and a device id. *)
Lemma login_loop_accepts username password failing item_url rest h result deviceid :
  all_fail username password failing h ->
  reply_envelope
    (server (sent h ++ map (login_request username password) failing)
            (login_request username password item_url)) = Some result ->
  _error_code result = 0 ->
  data_get result "deviceid" = Some (VStr deviceid) ->
  login_loop K server username password (failing ++ item_url :: rest) h =
  let h2 := signed_in item_url deviceid (data_get result "iBaseToken")
              (attempted username password item_url
                 (after_failures username password failing h)) in
  if value_in (data_get result "accountstate") (PWD_EXPIRED_OR_INITIAL K) then
    match logout K server h2 with
    | (Returns _, h3) =>
        (Raises (ShareBackendException
           "Password has expired or initial, please change the password."
           None), h3)
    | (Raises e, h3) => (Raises e, h3)
    end
  else (Returns tt, h2).
Proof.
  intros Hfail Hr Hc Hd.
  rewrite login_loop_failures by exact Hfail. rewrite login_loop_cons. cbv zeta.
  rewrite after_failures_sent, Hr, Hc, Hd. reflexivity.
Qed.

(** *** The call coordinator *)

(** C1.  When the first transport result of [call] carries a code of
    [RELOGIN_ERROR_CODE]: if [relogin] reports success, the request is put
    on the wire once more and never again, and of the retry's result a code
    equal to [RELOGIN_ERROR_PASS] is set to 0 (the envelope returned has
    code 0 and the description and data of the retry's), a code 0 is
    returned as it is, and any other code is returned as the final result;
    if [relogin]
    reports failure, [call] returns the first envelope unchanged in the
    state [relogin] left, with nothing sent after it. *)
Theorem call_retries_once_after_relogin
    postfix_url method data timeout h s r1 h1 :
  url_truthy (url h) = true -> session h = Some s ->
  do_call K server postfix_url method data (timeout_of K timeout) h = (Returns r1, h1) ->
  code_in (_error_code r1) (RELOGIN_ERROR_CODE K) = true ->
  let result := call K server b64decode postfix_url method data timeout h in
  (forall h2,
     relogin K server b64decode (iBaseToken s) h1 = (Returns true, h2) ->
     (exists base2 s2,
        url h2 = Some base2 /\ session h2 = Some s2 /\
        sent (snd result) =
          sent h2 ++ [outgoing base2 (iBaseToken s2) postfix_url method data
                        (timeout_of K timeout)]) /\
     (forall r2 h3,
        do_call K server postfix_url method data (timeout_of K timeout) h2
          = (Returns r2, h3) ->
        (_error_code r2 = RELOGIN_ERROR_PASS K ->
           exists r,
             result = (Returns r, h3)
             /\ _error_code r = 0
             /\ description (error r) = description (error r2)
             /\ data_of r = data_of r2) /\
        (_error_code r2 = 0 -> result = (Returns r2, h3)) /\
        (_error_code r2 <> RELOGIN_ERROR_PASS K -> result = (Returns r2, h3))))
  /\
  (forall h2,
     relogin K server b64decode (iBaseToken s) h1 = (Returns false, h2) ->
     result = (Returns r1, h2)).
Proof.
  intros Hu Hs Hdc Hcode result. subst result.
  rewrite (call_with_url _ _ _ _ _ Hu Hs), Hdc. unfold call_tail.
  rewrite Hcode. split.
  - intros h2 Hre. rewrite Hre. split.
    + destruct (relogin_true_session _ _ Hre) as (base2 & s2 & Hu2 & Hs2).
      exists base2, s2. split; [assumption |]. split; [assumption |].
      rewrite (do_call_eq _ _ _ _ _ Hu2 Hs2). cbv zeta.
      destruct (reply_envelope _); reflexivity.
    + intros r2 h3 Hdc2. rewrite Hdc2. unfold retry_result.
      split; [| split].
      * intros Hpass. rewrite Hpass, Z.eqb_refl.
        exists (set_error_code r2 0). repeat split.
      * intros Hzero. destruct (_error_code r2 =? RELOGIN_ERROR_PASS K); [| reflexivity].
        destruct r2 as [[c d] dat]. unfold _error_code in Hzero. simpl in Hzero.
        subst c. reflexivity.
      * intros Hother. apply Z.eqb_neq in Hother. rewrite Hother. reflexivity.
  - intros h2 Hre. rewrite Hre. reflexivity.
Qed.

(** C7.  While the helper has no base URL ([self.url] is [None] or
    empty), the first attempt of [call] is the locally made [unauthorized]
    envelope and puts nothing on the wire: when its code is not one of
    [RELOGIN_ERROR_CODE], [call] returns it and leaves the helper as it
    was; when it is, [relogin] starts from the unchanged helper with
    [old_token = None]. *)
Theorem call_without_base_url_is_unauthorized
    postfix_url method data timeout h :
  url_truthy (url h) = false ->
  let local := mk_envelope
                 (mk_error (ERROR_UNAUTHORIZED_TO_SERVER K) "unauthorized.") None in
  let result := call K server b64decode postfix_url method data timeout h in
  (code_in (ERROR_UNAUTHORIZED_TO_SERVER K) (RELOGIN_ERROR_CODE K) = false ->
     result = (Returns local, h))
  /\
  (code_in (ERROR_UNAUTHORIZED_TO_SERVER K) (RELOGIN_ERROR_CODE K) = true ->
     result =
     match relogin K server b64decode None h with
     | (Returns true, h2) =>
         match do_call K server postfix_url method data (timeout_of K timeout) h2 with
         | (Returns r2, h3) => (Returns (retry_result r2), h3)
         | (Raises e, h3) => (Raises e, h3)
         end
     | (Returns false, h2) => (Returns local, h2)
     | (Raises e, h2) => (Raises e, h2)
     end).
Proof.
  intros Hu local result. subst result.
  rewrite (call_without_url _ _ _ _ _ Hu). unfold call_tail.
  change (_error_code (unauthorized K)) with (ERROR_UNAUTHORIZED_TO_SERVER K).
  split; intros Hc; rewrite Hc; reflexivity.
Qed.

(** C8, as amended.  In [do_call], a request whose sending raises gives
    the connect-failure envelope, and a response that [raise_for_status]
    rejects, which is one with a status from 400 to 599, gives an envelope
    with the status code as [code] and the text of the HTTP error as
    [description]; neither raises.  A response with any other status, 2xx
    or not, goes on to [res.json()].  No exception of the transport comes
    out of [call]. *)
Theorem transport_failure_is_an_envelope
    postfix_url method data h :
  (forall timeout base s err,
     url h = Some base -> session h = Some s ->
     let rq := outgoing base (iBaseToken s) postfix_url method data timeout in
     server (sent h) rq = Refused err ->
     do_call K server postfix_url method data timeout h =
       (Returns (mk_envelope
                   (mk_error (ERROR_CONNECT_TO_SERVER K) "Connect server error") None),
        put_on_wire rq h))
  /\
  (forall timeout base s status_code text,
     url h = Some base -> session h = Some s ->
     let rq := outgoing base (iBaseToken s) postfix_url method data timeout in
     server (sent h) rq = Http_error status_code text ->
     do_call K server postfix_url method data timeout h =
       (Returns (mk_envelope (mk_error status_code text) None), put_on_wire rq h))
  /\
  (forall timeout base s res,
     url h = Some base -> session h = Some s ->
     let rq := outgoing base (iBaseToken s) postfix_url method data timeout in
     server (sent h) rq = response_of res ->
     (400 <= http_status res < 600 ->
        do_call K server postfix_url method data timeout h =
          (Returns (mk_envelope
                      (mk_error (http_status res) (http_error_text res)) None),
           put_on_wire rq h))
     /\ (http_status res < 400 \/ 600 <= http_status res ->
         do_call K server postfix_url method data timeout h =
           (match http_body res with
            | Some res_json => Returns res_json
            | None => Raises JSONDecodeError
            end, put_on_wire rq h)))
  /\
  (forall timeout err,
     fst (call K server b64decode postfix_url method data timeout h)
       <> Raises (TransportError err)).
Proof.
  split; [| split; [| split]].
  - intros timeout base s err Hu Hs rq Hr.
    rewrite (do_call_eq _ _ _ _ _ Hu Hs). cbv zeta. fold rq. rewrite Hr.
    reflexivity.
  - intros timeout base s c t Hu Hs rq Hr.
    rewrite (do_call_eq _ _ _ _ _ Hu Hs). cbv zeta. fold rq. rewrite Hr.
    reflexivity.
  - intros timeout base s res Hu Hs rq Hr.
    rewrite (do_call_eq _ _ _ _ _ Hu Hs). cbv zeta. fold rq. rewrite Hr.
    unfold response_of, status_is_rejected. split.
    + intros [Hlo Hhi]. apply Z.leb_le in Hlo. apply Z.ltb_lt in Hhi.
      rewrite Hlo, Hhi. reflexivity.
    + intros [Hlo | Hhi].
      * replace (400 <=? http_status res) with false
          by (symmetry; apply Z.leb_gt; exact Hlo).
        simpl. destruct (http_body res); reflexivity.
      * replace (http_status res <? 600) with false
          by (symmetry; apply Z.ltb_ge; exact Hhi).
        rewrite andb_false_r. simpl. destruct (http_body res); reflexivity.
  - intros timeout err Hraise.
    destruct (call K server b64decode postfix_url method data timeout h)
      as [o h'] eqn:Hc.
    simpl in Hraise. subst o.
    destruct (call_raises _ _ _ _ _ Hc) as [H | [H | H]]; discriminate H.
Qed.

(** C10.  When the response passes [raise_for_status] but its body is not
    JSON, the exception of [res.json()] comes out of [do_call], and out of
    [call] from the first request as well as from the retry; no envelope
    is made of it. *)
Theorem unparsable_body_propagates
    postfix_url method data h base s :
  url h = Some base -> session h = Some s ->
  (forall timeout,
     let rq := outgoing base (iBaseToken s) postfix_url method data timeout in
     server (sent h) rq = Http_ok None ->
     do_call K server postfix_url method data timeout h =
       (Raises JSONDecodeError, put_on_wire rq h))
  /\
  (forall timeout,
     let rq := outgoing base (iBaseToken s) postfix_url method data
                 (timeout_of K timeout) in
     base <> "" ->
     server (sent h) rq = Http_ok None ->
     call K server b64decode postfix_url method data timeout h =
       (Raises JSONDecodeError, put_on_wire rq h))
  /\
  (forall timeout r1 h1 h2 base2 s2,
     let rq := outgoing base2 (iBaseToken s2) postfix_url method data
                 (timeout_of K timeout) in
     base <> "" ->
     do_call K server postfix_url method data (timeout_of K timeout) h
       = (Returns r1, h1) ->
     code_in (_error_code r1) (RELOGIN_ERROR_CODE K) = true ->
     relogin K server b64decode (iBaseToken s) h1 = (Returns true, h2) ->
     url h2 = Some base2 -> session h2 = Some s2 ->
     server (sent h2) rq = Http_ok None ->
     call K server b64decode postfix_url method data timeout h =
       (Raises JSONDecodeError, put_on_wire rq h2)).
Proof.
  intros Hu Hs.
  assert (Htruthy : base <> "" -> url_truthy (url h) = true).
  { intros Hb. rewrite Hu. unfold url_truthy, str_truthy.
    destruct (String.eqb_spec base ""); [contradiction | reflexivity]. }
  split; [| split].
  - intros timeout rq Hr.
    rewrite (do_call_eq _ _ _ _ _ Hu Hs). cbv zeta. fold rq. rewrite Hr.
    reflexivity.
  - intros timeout rq Hb Hr.
    rewrite (call_with_url _ _ _ _ _ (Htruthy Hb) Hs).
    rewrite (do_call_eq _ _ _ _ _ Hu Hs). cbv zeta. fold rq. rewrite Hr.
    reflexivity.
  - intros timeout r1 h1 h2 base2 s2 rq Hb Hdc Hcode Hre Hu2 Hs2 Hr.
    rewrite (call_with_url _ _ _ _ _ (Htruthy Hb) Hs), Hdc.
    unfold call_tail. rewrite Hcode, Hre.
    rewrite (do_call_eq _ _ _ _ _ Hu2 Hs2). cbv zeta. fold rq. rewrite Hr.
    reflexivity.
Qed.

(** C2.  [relogin(old_token)] has three branches: without a base URL it
    is a [login]; with a base URL and [old_token] equal to the token held
    it is [logout], whose outcome is ignored, and then [login]; with a
    base URL and another token it returns [True] and leaves the helper as
    it was.  Where it logs in, the result is [True] when [login] returns
    and [False] when [login] raises.  With a session object behind the base
    URL it always returns a boolean and raises nothing. *)
Theorem relogin_three_way old_token h :
  (url h = None ->
     relogin K server b64decode old_token h =
     login_as_bool (login K server b64decode h))
  /\
  (forall base s,
     url h = Some base -> session h = Some s -> old_token = iBaseToken s ->
     relogin K server b64decode old_token h =
     login_as_bool (login K server b64decode (snd (logout K server h))))
  /\
  (forall base s,
     url h = Some base -> session h = Some s -> old_token <> iBaseToken s ->
     relogin K server b64decode old_token h = (Returns true, h))
  /\
  ((url h <> None -> session h <> None) ->
     exists usable h',
       relogin K server b64decode old_token h = (Returns usable, h')).
Proof.
  split; [| split; [| split]].
  - apply relogin_without_url.
  - intros base s Hu Hs Ht. apply (relogin_same_token _ _ Hu Hs).
    apply py_eqb_eq. assumption.
  - intros base s Hu Hs Ht. apply (relogin_other_token _ _ Hu Hs).
    destruct (py_eqb old_token (iBaseToken s)) eqn:E; [| reflexivity].
    apply py_eqb_eq in E. contradiction.
  - intros Hwf.
    destruct (relogin K server b64decode old_token h) as [[usable | e] h'] eqn:Hre;
      [eauto |].
    exfalso. destruct (url h) as [base |] eqn:Hu.
    + destruct (session h) as [s |] eqn:Hs; [| apply Hwf; congruence].
      destruct (py_eqb old_token (iBaseToken s)) eqn:Ht.
      * rewrite (relogin_same_token _ _ Hu Hs Ht) in Hre. unfold login_as_bool in Hre.
        destruct (login K server b64decode _) as [[[] | e1] h1]; discriminate Hre.
      * rewrite (relogin_other_token _ _ Hu Hs Ht) in Hre. discriminate Hre.
    + rewrite (relogin_without_url _ _ Hu) in Hre. unfold login_as_bool in Hre.
      destruct (login K server b64decode _) as [[[] | e1] h1]; discriminate Hre.
Qed.

(** *** The session *)

Lemma str_truthy_neq base : base <> "" -> str_truthy base = true.
Proof.
  intros Hb. unfold str_truthy.
  destruct (String.eqb_spec base ""); [contradiction | reflexivity].
Qed.

Lemma logout_with_url h base s :
  url h = Some base -> str_truthy base = true -> session h = Some s ->
  logout K server h =
  (match reply_envelope (server (sent h) (logout_request base (iBaseToken s))) with
   | Some result =>
       if _error_code result =? 0 then Returns tt
       else Raises (ShareBackendException
                      (assert_message "Logout session error.")
                      (Some result))
   | None => Raises JSONDecodeError
   end, put_on_wire (logout_request base (iBaseToken s)) h).
Proof.
  intros Hu Hb Hs. rewrite logout_eq, Hu. simpl url_truthy. rewrite Hb.
  rewrite (do_call_eq _ _ _ _ _ Hu Hs). cbv zeta.
  fold (logout_request base (iBaseToken s)).
  destruct (reply_envelope _) as [r |]; [| reflexivity].
  rewrite assert_result_eq. destruct (_error_code r =? 0); reflexivity.
Qed.

Lemma login_loop_keeps_url username password addresses :
  forall h o h',
  addresses <> [] ->
  login_loop K server username password addresses h = (o, h') ->
  url h' <> None.
Proof.
  induction addresses as [| item_url rest IH]; intros h o h' Hne H.
  - contradiction.
  - rewrite login_loop_cons in H. cbv zeta in H.
    destruct (reply_envelope _) as [result |].
    + destruct (negb (_error_code result =? 0)).
      * destruct rest as [| next rest'].
        -- inversion H; subst. discriminate.
        -- eapply IH; [discriminate | eassumption].
      * destruct (data_get result "deviceid") as [[deviceid | z] |];
          try (inversion H; subst; discriminate).
        destruct (value_in _ _).
        -- destruct (logout K server _) as [[[] | e] h3] eqn:Hlo;
             inversion H; subst;
             destruct (logout_frame _ Hlo) as (Hu & _); rewrite Hu; discriminate.
        -- inversion H; subst. discriminate.
    + inversion H; subst. discriminate.
Qed.

Lemma login_token_needs_url h :
  token_needs_url h -> token_needs_url (snd (login K server b64decode h)).
Proof.
  intros Hinv. rewrite login_eq.
  destruct (fst (_get_user_info b64decode h)) as [ui | e]; [| exact Hinv].
  destruct (nas_address h) as [| item_url rest] eqn:Ha; [exact Hinv |].
  intros _.
  destruct (login_loop K server (fst ui) (snd ui) (item_url :: rest) h)
    as [o h'] eqn:Hl.
  eapply login_loop_keeps_url; [| exact Hl]. discriminate.
Qed.

Lemma logout_token_needs_url h :
  token_needs_url h -> token_needs_url (snd (logout K server h)).
Proof.
  intros Hinv. destruct (logout K server h) as [o h'] eqn:Hlo.
  destruct (logout_frame _ Hlo) as (Hu & Hs & _).
  unfold token_needs_url, token in *. simpl. rewrite Hu, Hs. exact Hinv.
Qed.

Lemma snd_login_as_bool r : snd (login_as_bool r) = snd r.
Proof. destruct r as [[[] | e] h]; reflexivity. Qed.

Lemma relogin_token_needs_url old_token h :
  token_needs_url h ->
  token_needs_url (snd (relogin K server b64decode old_token h)).
Proof.
  intros Hinv. destruct (url h) as [base |] eqn:Hu.
  - destruct (session h) as [s |] eqn:Hs.
    + destruct (py_eqb old_token (iBaseToken s)) eqn:Ht.
      * rewrite (relogin_same_token _ _ Hu Hs Ht), snd_login_as_bool.
        apply login_token_needs_url, logout_token_needs_url, Hinv.
      * rewrite (relogin_other_token _ _ Hu Hs Ht). exact Hinv.
    + rewrite (relogin_without_session _ _ Hu Hs). exact Hinv.
  - rewrite (relogin_without_url _ _ Hu), snd_login_as_bool.
    apply login_token_needs_url, Hinv.
Qed.

Lemma login_all_fail h username password :
  fst (_get_user_info b64decode h) = Returns (username, password) ->
  all_fail username password (nas_address h) h ->
  login K server b64decode h =
  (Raises (ShareBackendException "All url login fail." None),
   after_failures username password (nas_address h) h).
Proof.
  intros Hui Hfail. rewrite login_eq, Hui. simpl fst. simpl snd.
  rewrite <- (app_nil_r (nas_address h)) at 1.
  rewrite login_loop_failures by exact Hfail. reflexivity.
Qed.

(** C3, as amended.  A helper that holds a token holds a base URL: so it
    is after construction and after [init_http_head], and [login],
    [logout] and [relogin] keep it so, also when they raise.  After a
    [login] over a non-empty endpoint list on which every endpoint
    answered with a non-zero code, the helper holds the last endpoint as
    base URL and no token. *)
Theorem token_held_implies_url_held :
  (forall a u p v c, token_needs_url (__init__ a u p v c))
  /\ (forall h, token_needs_url (snd (init_http_head h)))
  /\ (forall h, token_needs_url h ->
        token_needs_url (snd (login K server b64decode h)))
  /\ (forall h, token_needs_url h -> token_needs_url (snd (logout K server h)))
  /\ (forall h old_token, token_needs_url h ->
        token_needs_url (snd (relogin K server b64decode old_token h)))
  /\ (forall h username password,
        fst (_get_user_info b64decode h) = Returns (username, password) ->
        nas_address h <> [] ->
        all_fail username password (nas_address h) h ->
        exists h',
          login K server b64decode h =
            (Raises (ShareBackendException "All url login fail." None), h')
          /\ url h' = Some (last (nas_address h) "")
          /\ token h' = None).
Proof.
  split; [| split; [| split; [| split; [| split]]]].
  - intros a u p v c Htok. exfalso. apply Htok. reflexivity.
  - intros h Htok. exfalso. apply Htok. reflexivity.
  - apply login_token_needs_url.
  - apply logout_token_needs_url.
  - intros h old_token. apply relogin_token_needs_url.
  - intros h username password Hui Hne Hfail.
    exists (after_failures username password (nas_address h) h).
    split; [apply login_all_fail; assumption |].
    destruct (exists_last Hne) as (front & e & Heq). rewrite Heq.
    rewrite last_last. apply after_failures_last.
Qed.

(** C4, as amended.  With a base URL set, [logout] puts the session-delete
    request on the wire; it returns when the result code is 0 and raises
    [ShareBackendException] when the result code is not 0.  [relogin]
    is the caller that tolerates the failure: whatever [logout] did, it
    goes on to [login] from the state [logout] left. *)
Theorem logout_raises_on_error_code h base s :
  url h = Some base -> base <> "" -> session h = Some s ->
  let rq := logout_request base (iBaseToken s) in
  (forall result,
     reply_envelope (server (sent h) rq) = Some result ->
     _error_code result = 0 ->
     logout K server h = (Returns tt, put_on_wire rq h))
  /\
  (forall result,
     reply_envelope (server (sent h) rq) = Some result ->
     _error_code result <> 0 ->
     logout K server h =
       (Raises (ShareBackendException
                  (assert_message "Logout session error.")
                  (Some result)), put_on_wire rq h))
  /\
  relogin K server b64decode (iBaseToken s) h =
    login_as_bool (login K server b64decode (put_on_wire rq h)).
Proof.
  intros Hu Hb Hs rq. subst rq.
  pose proof (logout_with_url _ Hu (str_truthy_neq Hb) Hs) as Hlo.
  split; [| split].
  - intros result Hr Hc. rewrite Hlo, Hr, Hc. reflexivity.
  - intros result Hr Hc. rewrite Hlo, Hr. apply Z.eqb_neq in Hc. rewrite Hc.
    reflexivity.
  - rewrite (@relogin_same_token (iBaseToken s) h base s Hu Hs)
      by (apply py_eqb_eq; reflexivity).
    rewrite Hlo. reflexivity.
Qed.

(** C5.  [login] tries the endpoints in the order of [nas_address], each
    with a session object that carries no token ([login_request]).  When
    the endpoints [failing] answer with a non-zero code and the next one
    answers with code 0 and a device id, the base URL becomes that
    endpoint followed by the device id, the token becomes the one of the
    answer, and the login requests sent are those for [failing] and that
    endpoint, in order: none goes to the endpoints after it.  When every
    endpoint answers with a non-zero code, [login] raises
    [ShareBackendException] "All url login fail." after one request to
    each. *)
Theorem login_tries_endpoints_in_order h username password failing :
  fst (_get_user_info b64decode h) = Returns (username, password) ->
  all_fail username password failing h ->
  (nas_address h = failing ->
     exists h',
       login K server b64decode h =
         (Raises (ShareBackendException "All url login fail." None), h')
       /\ sent h' = sent h ++ map (login_request username password) failing)
  /\
  (forall item_url rest result deviceid,
     nas_address h = failing ++ item_url :: rest ->
     reply_envelope
       (server (sent h ++ map (login_request username password) failing)
               (login_request username password item_url)) = Some result ->
     _error_code result = 0 ->
     data_get result "deviceid" = Some (VStr deviceid) ->
     let new_url := (item_url ++ deviceid)%string in
     let tok := data_get result "iBaseToken" in
     let expired :=
       value_in (data_get result "accountstate") (PWD_EXPIRED_OR_INITIAL K) in
     exists o h',
       login K server b64decode h = (o, h')
       /\ url h' = Some new_url
       /\ token h' = tok
       /\ sent h' =
            sent h
            ++ map (login_request username password) (failing ++ [item_url])
            ++ (if expired && str_truthy new_url
                then [logout_request new_url tok] else [])
       /\ (expired = false -> o = Returns tt)).
Proof.
  intros Hui Hfail. split.
  - intros Ha. rewrite <- Ha in Hfail.
    exists (after_failures username password (nas_address h) h).
    split; [apply login_all_fail; assumption |].
    rewrite after_failures_sent, Ha. reflexivity.
  - intros item_url rest result deviceid Ha Hr Hc Hd new_url tok expired.
    rewrite login_eq, Hui, Ha. simpl fst. simpl snd.
    rewrite (login_loop_accepts _ _ Hfail Hr Hc Hd). cbv zeta.
    fold new_url tok expired.
    set (h1 := attempted username password item_url
                 (after_failures username password failing h)).
    set (h2 := signed_in item_url deviceid tok h1).
    assert (Hsent : sent h2 =
              sent h ++ map (login_request username password) (failing ++ [item_url])).
    { change (sent h2) with
        (sent (after_failures username password failing h)
         ++ [login_request username password item_url]).
      rewrite after_failures_sent, map_app, app_assoc. reflexivity. }
    assert (Hfin : forall o rq,
              url (put_on_wire rq h2) = Some new_url
              /\ token (put_on_wire rq h2) = tok
              /\ sent (put_on_wire rq h2) =
                   sent h
                   ++ map (login_request username password) (failing ++ [item_url])
                   ++ [rq]
              /\ (true = false -> o = Returns tt)).
    { intros o rq. split; [reflexivity | split; [reflexivity | split]].
      - change (sent (put_on_wire rq h2)) with (sent h2 ++ [rq]).
        rewrite Hsent, <- app_assoc. reflexivity.
      - discriminate. }
    destruct expired eqn:Hexp.
    + destruct (str_truthy new_url) eqn:Ht.
      * assert (Hlo := @logout_with_url h2 new_url
                         (mk_Session tok (verify (fresh_session h1)))
                         eq_refl Ht eq_refl).
        simpl iBaseToken in Hlo. rewrite Hlo.
        match goal with
        | |- context [reply_envelope ?x] => destruct (reply_envelope x) as [r |]
        end.
        -- destruct (_error_code r =? 0); do 2 eexists;
             (split; [reflexivity | apply Hfin]).
        -- do 2 eexists. split; [reflexivity | apply Hfin].
      * rewrite logout_eq. change (url h2) with (Some new_url).
        simpl url_truthy. rewrite Ht.
        do 2 eexists. split; [reflexivity |].
        rewrite Hsent. simpl andb. cbv iota. rewrite app_nil_r.
        repeat split; discriminate.
    + do 2 eexists. split; [reflexivity |].
      rewrite Hsent, app_nil_r. repeat split.
Qed.

(** C6.  When the endpoint after [failing] answers the login request with
    code 0 and an account state of [PWD_EXPIRED_OR_INITIAL], [login] calls
    [logout] (one session-delete request on the new base URL with the new
    token) and raises: it does not return, and nothing goes to the
    endpoints after that one.  The exception is the password one when the
    session-delete answers with code 0. *)
Theorem expired_password_is_fatal
    h username password failing item_url rest result deviceid :
  fst (_get_user_info b64decode h) = Returns (username, password) ->
  all_fail username password failing h ->
  nas_address h = failing ++ item_url :: rest ->
  reply_envelope
    (server (sent h ++ map (login_request username password) failing)
            (login_request username password item_url)) = Some result ->
  _error_code result = 0 ->
  data_get result "deviceid" = Some (VStr deviceid) ->
  value_in (data_get result "accountstate") (PWD_EXPIRED_OR_INITIAL K) = true ->
  let new_url := (item_url ++ deviceid)%string in
  let tok := data_get result "iBaseToken" in
  let logins := map (login_request username password) (failing ++ [item_url]) in
  let password_error :=
    ShareBackendException
      "Password has expired or initial, please change the password." None in
  exists e h',
    login K server b64decode h = (Raises e, h')
    /\ sent h' =
         sent h ++ logins
         ++ (if str_truthy new_url then [logout_request new_url tok] else [])
    /\ (str_truthy new_url = false -> e = password_error)
    /\ (forall r,
          str_truthy new_url = true ->
          reply_envelope (server (sent h ++ logins) (logout_request new_url tok))
            = Some r ->
          _error_code r = 0 -> e = password_error).
Proof.
  intros Hui Hfail Ha Hr Hc Hd Hexp new_url tok logins password_error.
  rewrite login_eq, Hui, Ha. simpl fst. simpl snd.
  rewrite (login_loop_accepts _ _ Hfail Hr Hc Hd). cbv zeta.
  fold new_url tok. rewrite Hexp.
  set (h1 := attempted username password item_url
               (after_failures username password failing h)).
  set (h2 := signed_in item_url deviceid tok h1).
  assert (Hsent : sent h2 = sent h ++ logins).
  { change (sent h2) with
      (sent (after_failures username password failing h)
       ++ [login_request username password item_url]).
    subst logins. rewrite after_failures_sent, map_app, app_assoc. reflexivity. }
  destruct (str_truthy new_url) eqn:Ht.
  - assert (Hlo := @logout_with_url h2 new_url
                     (mk_Session tok (verify (fresh_session h1)))
                     eq_refl Ht eq_refl).
    simpl iBaseToken in Hlo. rewrite Hlo, Hsent.
    assert (Hwire : sent (put_on_wire (logout_request new_url tok) h2) =
                    sent h ++ logins ++ [logout_request new_url tok]).
    { change (sent (put_on_wire (logout_request new_url tok) h2))
        with (sent h2 ++ [logout_request new_url tok]).
      rewrite Hsent, <- app_assoc. reflexivity. }
    destruct (reply_envelope
                (server (sent h ++ logins) (logout_request new_url tok)))
      as [r |].
    + destruct (_error_code r =? 0) eqn:Hz.
      * do 2 eexists. split; [reflexivity |]. split; [exact Hwire |].
        split; [discriminate | reflexivity].
      * do 2 eexists. split; [reflexivity |]. split; [exact Hwire |].
        split; [discriminate |].
        intros r0 _ Hr0 Hc0. inversion Hr0; subst r0.
        apply Z.eqb_neq in Hz. contradiction.
    + do 2 eexists. split; [reflexivity |]. split; [exact Hwire |].
      split; discriminate.
  - rewrite logout_eq. change (url h2) with (Some new_url).
    simpl url_truthy. rewrite Ht.
    do 2 eexists. split; [reflexivity |]. rewrite Hsent, app_nil_r.
    split; [reflexivity |]. split; [reflexivity | discriminate].
Qed.

(** *** More on the session *)

Lemma call_plain postfix_url method data timeout h base s r :
  url h = Some base -> str_truthy base = true -> session h = Some s ->
  reply_envelope
    (server (sent h)
       (outgoing base (iBaseToken s) postfix_url method data (timeout_of K timeout)))
    = Some r ->
  code_in (_error_code r) (RELOGIN_ERROR_CODE K) = false ->
  call K server b64decode postfix_url method data timeout h =
  (Returns r,
   put_on_wire
     (outgoing base (iBaseToken s) postfix_url method data (timeout_of K timeout)) h).
Proof.
  intros Hu Hb Hs Hr Hc.
  assert (Ht : url_truthy (url h) = true) by (rewrite Hu; exact Hb).
  rewrite (call_with_url _ _ _ _ _ Ht Hs), (do_call_eq _ _ _ _ _ Hu Hs).
  cbv zeta. rewrite Hr. unfold call_tail. rewrite Hc. reflexivity.
Qed.

(** What [do_call] and [relogin] keep, [call] keeps. *)
Lemma call_preserves (P : RestHelper -> Prop) :
  (forall postfix_url method data timeout h,
     P h -> P (snd (do_call K server postfix_url method data timeout h))) ->
  (forall old_token h, P h -> P (snd (relogin K server b64decode old_token h))) ->
  forall postfix_url method data timeout h,
    P h -> P (snd (call K server b64decode postfix_url method data timeout h)).
Proof.
  intros Hdo Hre postfix_url method data timeout h HP.
  assert (Htail : forall old_token result h1,
            P h1 ->
            P (snd (call_tail postfix_url method data timeout old_token result h1))).
  { intros old_token result h1 HP1. unfold call_tail.
    destruct (code_in _ _); [| exact HP1].
    pose proof (Hre old_token h1 HP1) as HP2.
    destruct (relogin K server b64decode old_token h1) as [[[] | e] h2];
      simpl in HP2; try exact HP2.
    pose proof (Hdo postfix_url method data (timeout_of K timeout) h2 HP2) as HP3.
    destruct (do_call K server postfix_url method data (timeout_of K timeout) h2)
      as [[r2 | e] h3]; exact HP3. }
  destruct (url_truthy (url h)) eqn:Hu.
  - destruct (session h) as [s |] eqn:Hs.
    + rewrite (call_with_url _ _ _ _ _ Hu Hs).
      pose proof (Hdo postfix_url method data (timeout_of K timeout) h HP) as HP1.
      destruct (do_call K server postfix_url method data (timeout_of K timeout) h)
        as [[r1 | e] h1]; simpl in HP1; [apply Htail |]; exact HP1.
    + rewrite (call_without_session _ _ _ _ _ Hu Hs). exact HP.
  - rewrite (call_without_url _ _ _ _ _ Hu). apply Htail. exact HP.
Qed.

Lemma undecodable_raises c (h : RestHelper) :
  undecodable c -> decode_credential b64decode c h = (Raises DecodeError, h).
Proof.
  intros [Hp Hd]. unfold decode_credential. rewrite Hp, Hd. reflexivity.
Qed.

Lemma decode_credential_cases c (h : RestHelper) :
  (exists plain, decode_credential b64decode c h = (Returns plain, h))
  \/ decode_credential b64decode c h = (Raises DecodeError, h).
Proof.
  unfold decode_credential. destruct (prefix "!$$$" c); [| left; eexists; reflexivity].
  destruct (b64decode (drop4 c)); [left; eexists |right]; reflexivity.
Qed.

(** X1.  Credentials without the prefix ["!$$$"] are used as they are.  A
    credential that carries the prefix and does not decode makes [login]
    raise before anything is sent: the helper is left as it was, and a
    [relogin] that had to log in reports [False]. *)
Theorem login_needs_decodable_credentials h :
  (prefix "!$$$" (nas_username h) = false ->
   prefix "!$$$" (nas_password h) = false ->
   fst (_get_user_info b64decode h) = Returns (nas_username h, nas_password h))
  /\
  (undecodable (nas_username h) \/ undecodable (nas_password h) ->
   login K server b64decode h = (Raises DecodeError, h)
   /\ (url h = None ->
       forall old_token,
         relogin K server b64decode old_token h = (Returns false, h))).
Proof.
  split.
  - intros Hu Hp. unfold _get_user_info, decode_credential. py_unfold.
    rewrite Hu, Hp. reflexivity.
  - intros Hbad.
    assert (Hlogin : login K server b64decode h = (Raises DecodeError, h)).
    { rewrite login_eq. unfold _get_user_info. py_unfold.
      destruct Hbad as [Hbad | Hbad].
      - rewrite (undecodable_raises h Hbad). reflexivity.
      - destruct (decode_credential_cases (nas_username h) h) as [[u Hu] | Hu];
          rewrite Hu; [| reflexivity].
        rewrite (undecodable_raises h Hbad). reflexivity. }
    split; [exact Hlogin |].
    intros Hurl old_token. rewrite (relogin_without_url _ _ Hurl), Hlogin.
    reflexivity.
Qed.

Lemma login_loop_sends username password addresses :
  forall h o h',
  login_loop K server username password addresses h = (o, h') ->
  exists n closing,
    sent h' =
      sent h ++ map (login_request username password) (firstn n addresses)
      ++ closing
    /\ (closing = []
        \/ exists base tok e,
             closing = [logout_request base tok] /\ o = Raises e).
Proof.
  induction addresses as [| item_url rest IH]; intros h o h' H.
  - inversion H; subst. exists 0%nat; exists (@nil request). simpl. rewrite app_nil_r. auto.
  - rewrite login_loop_cons in H. cbv zeta in H.
    set (h1 := attempted username password item_url h) in H.
    assert (Hone : forall closing,
              sent h1 ++ closing =
              sent h ++ map (login_request username password)
                          (firstn 1 (item_url :: rest)) ++ closing).
    { intros closing. change (sent h1) with
        (sent h ++ [login_request username password item_url]).
      rewrite <- app_assoc. reflexivity. }
    destruct (reply_envelope _) as [result |].
    + destruct (negb (_error_code result =? 0)).
      * destruct (IH _ _ _ H) as (n & closing & Hsent & Hclose).
        exists (S n), closing. split; [| exact Hclose].
        rewrite Hsent. change (sent h1) with
          (sent h ++ [login_request username password item_url]).
        rewrite <- app_assoc. reflexivity.
      * destruct (data_get result "deviceid") as [[deviceid | z] |];
          try solve [inversion H; subst; exists 1%nat; exists (@nil request);
                     rewrite <- Hone, app_nil_r; auto].
        set (tok := data_get result "iBaseToken") in H.
        set (h2 := signed_in item_url deviceid tok h1) in H.
        destruct (value_in _ _).
        -- destruct (str_truthy (item_url ++ deviceid)%string) eqn:Ht.
           ++ assert (Hlo := @logout_with_url h2 (item_url ++ deviceid)%string
                               (mk_Session tok (verify (fresh_session h1)))
                               eq_refl Ht eq_refl).
              simpl iBaseToken in Hlo. rewrite Hlo in H.
              exists 1%nat; exists [logout_request (item_url ++ deviceid)%string tok].
              assert (Hs : sent h' =
                           sent h1 ++ [logout_request (item_url ++ deviceid)%string tok]).
              { destruct (reply_envelope _) as [r |];
                  [destruct (_error_code r =? 0) |]; inversion H; reflexivity. }
              rewrite Hs, Hone. split; [reflexivity |]. right.
              destruct (reply_envelope _) as [r |];
                [destruct (_error_code r =? 0) |]; inversion H; eauto.
           ++ rewrite logout_eq in H. change (url h2) with
                (Some (item_url ++ deviceid)%string) in H.
              simpl url_truthy in H. rewrite Ht in H. inversion H; subst.
              exists 1%nat; exists (@nil request). change (sent h2) with (sent h1).
              rewrite <- Hone, app_nil_r. auto.
        -- inversion H; subst. exists 1%nat; exists (@nil request). change (sent h2) with (sent h1).
           rewrite <- Hone, app_nil_r. auto.
    + inversion H; subst. exists 1%nat; exists (@nil request). rewrite <- Hone, app_nil_r. auto.
Qed.

(** X2.  Whatever the array answers, what [login] puts on the wire is one
    login request (no token, [LOGIN_SOCKET_TIMEOUT]) to each of the first
    [n] endpoints of [nas_address], in order, and after them at most one
    session-delete, which only a [login] that raises sends. *)
Theorem login_sends_login_requests_in_order h o h' :
  login K server b64decode h = (o, h') ->
  exists username password n closing,
    sent h' =
      sent h
      ++ map (login_request username password) (firstn n (nas_address h))
      ++ closing
    /\ (closing = []
        \/ exists base tok e,
             closing = [logout_request base tok] /\ o = Raises e).
Proof.
  rewrite login_eq.
  destruct (fst (_get_user_info b64decode h)) as [[username password] | e].
  - simpl fst. simpl snd. intros H. exists username, password.
    eapply login_loop_sends; eassumption.
  - intros H. inversion H; subst.
    exists "", "", 0%nat; exists (@nil request). simpl. rewrite app_nil_r. auto.
Qed.

(** X3.  An endpoint that answers the login request with code 0 and a
    [data] member that is absent, or is an object without a string
    [deviceid], ends [login] in [TypeError]: the base URL
    stays the bare endpoint, no token is held, and the endpoints after it
    are not tried. *)
Theorem login_without_deviceid
    h username password failing item_url rest result :
  fst (_get_user_info b64decode h) = Returns (username, password) ->
  all_fail username password failing h ->
  nas_address h = failing ++ item_url :: rest ->
  reply_envelope
    (server (sent h ++ map (login_request username password) failing)
            (login_request username password item_url)) = Some result ->
  _error_code result = 0 ->
  (forall deviceid, data_get result "deviceid" <> Some (VStr deviceid)) ->
  exists h',
    login K server b64decode h = (Raises TypeError, h')
    /\ url h' = Some item_url
    /\ token h' = None
    /\ sent h' =
         sent h ++ map (login_request username password) (failing ++ [item_url]).
Proof.
  intros Hui Hfail Ha Hr Hc Hd.
  exists (attempted username password item_url
            (after_failures username password failing h)).
  split.
  - rewrite login_eq, Hui, Ha. simpl fst. simpl snd.
    rewrite login_loop_failures by exact Hfail. rewrite login_loop_cons.
    cbv zeta. rewrite after_failures_sent, Hr, Hc. simpl negb. cbv iota.
    destruct (data_get result "deviceid") as [[deviceid | z] |]; try reflexivity.
    exfalso. apply (Hd deviceid). reflexivity.
  - split; [reflexivity |]. split; [reflexivity |].
    change (sent (attempted username password item_url
                    (after_failures username password failing h)))
      with (sent (after_failures username password failing h)
            ++ [login_request username password item_url]).
    rewrite after_failures_sent, map_app, app_assoc. reflexivity.
Qed.

(** X4.  An endpoint that answers the login request with a body that is
    not JSON ends [login] in the exception of [res.json()]: the endpoints
    after it are not tried, and a [relogin] that had to log in reports
    [False]. *)
Theorem login_stops_at_unparsable_answer
    h username password failing item_url rest :
  fst (_get_user_info b64decode h) = Returns (username, password) ->
  all_fail username password failing h ->
  nas_address h = failing ++ item_url :: rest ->
  server (sent h ++ map (login_request username password) failing)
         (login_request username password item_url) = Http_ok None ->
  exists h',
    login K server b64decode h = (Raises JSONDecodeError, h')
    /\ sent h' =
         sent h ++ map (login_request username password) (failing ++ [item_url])
    /\ (url h = None ->
        forall old_token,
          relogin K server b64decode old_token h = (Returns false, h')).
Proof.
  intros Hui Hfail Ha Hr.
  exists (attempted username password item_url
            (after_failures username password failing h)).
  assert (Hlogin : login K server b64decode h =
            (Raises JSONDecodeError,
             attempted username password item_url
               (after_failures username password failing h))).
  { rewrite login_eq, Hui, Ha. simpl fst. simpl snd.
    rewrite login_loop_failures by exact Hfail. rewrite login_loop_cons.
    cbv zeta. rewrite after_failures_sent, Hr. reflexivity. }
  split; [exact Hlogin |]. split.
  - change (sent (attempted username password item_url
                    (after_failures username password failing h)))
      with (sent (after_failures username password failing h)
            ++ [login_request username password item_url]).
    rewrite after_failures_sent, map_app, app_assoc. reflexivity.
  - intros Hu old_token. rewrite (relogin_without_url _ _ Hu), Hlogin.
    reflexivity.
Qed.

(** X5.  [logout] clears nothing: whatever it returns or raises, the
    helper holds the base URL and the token it held before, and at most
    one request, a [DELETE], has gone out. *)
Theorem logout_keeps_url_and_token h o h' :
  logout K server h = (o, h') ->
  url h' = url h /\ token h' = token h
  /\ (sent h' = sent h
      \/ exists rq, sent h' = sent h ++ [rq] /\ req_method rq = DELETE).
Proof.
  intros H. destruct (logout_frame _ H) as (Hu & Hs & _).
  split; [exact Hu |]. split; [unfold token; rewrite Hs; reflexivity |].
  rewrite logout_eq in H. destruct (url_truthy (url h)) eqn:Ht.
  - destruct (url h) as [base |] eqn:Hb; [| discriminate Ht].
    destruct (session h) as [s |] eqn:Hss.
    + rewrite (@do_call_eq h base s "/sessions" DELETE None (SOCKET_TIMEOUT K) Hb Hss)
        in H.
      cbv zeta in H. right.
      exists (outgoing base (iBaseToken s) "/sessions" DELETE None (SOCKET_TIMEOUT K)).
      split; [| reflexivity].
      destruct (reply_envelope _) as [r |].
      * rewrite assert_result_eq in H.
        destruct (_error_code r =? 0); inversion H; reflexivity.
      * inversion H; reflexivity.
    + left. unfold do_call in H. py_unfold. rewrite Hb, Hss in H.
      inversion H; reflexivity.
  - left. inversion H; reflexivity.
Qed.

Lemma login_loop_keeps_session username password addresses :
  forall h o h',
  addresses <> [] ->
  login_loop K server username password addresses h = (o, h') ->
  session h' <> None.
Proof.
  induction addresses as [| item_url rest IH]; intros h o h' Hne H.
  - contradiction.
  - rewrite login_loop_cons in H. cbv zeta in H.
    destruct (reply_envelope _) as [result |].
    + destruct (negb (_error_code result =? 0)).
      * destruct rest as [| next rest'].
        -- inversion H; subst. discriminate.
        -- eapply IH; [discriminate | eassumption].
      * destruct (data_get result "deviceid") as [[deviceid | z] |];
          try (inversion H; subst; discriminate).
        destruct (value_in _ _).
        -- destruct (logout K server _) as [[[] | e] h3] eqn:Hlo;
             inversion H; subst;
             destruct (logout_frame _ Hlo) as (_ & Hs & _); rewrite Hs;
             discriminate.
        -- inversion H; subst. discriminate.
    + inversion H; subst. discriminate.
Qed.

Lemma do_call_has_session postfix_url method data timeout h :
  has_session_object h ->
  has_session_object (snd (do_call K server postfix_url method data timeout h)).
Proof.
  intros Hinv.
  destruct (do_call K server postfix_url method data timeout h) as [o h'] eqn:Hdc.
  destruct (do_call_frame _ _ _ _ _ Hdc) as (Hu & Hs & _).
  unfold has_session_object in *. simpl. rewrite Hu, Hs. exact Hinv.
Qed.

Lemma login_has_session h :
  has_session_object h -> has_session_object (snd (login K server b64decode h)).
Proof.
  intros Hinv. rewrite login_eq.
  destruct (fst (_get_user_info b64decode h)) as [ui | e]; [| exact Hinv].
  destruct (nas_address h) as [| item_url rest] eqn:Ha; [exact Hinv |].
  intros _.
  destruct (login_loop K server (fst ui) (snd ui) (item_url :: rest) h)
    as [o h'] eqn:Hl.
  eapply login_loop_keeps_session; [| exact Hl]. discriminate.
Qed.

Lemma logout_has_session h :
  has_session_object h -> has_session_object (snd (logout K server h)).
Proof.
  intros Hinv. destruct (logout K server h) as [o h'] eqn:Hlo.
  destruct (logout_frame _ Hlo) as (Hu & Hs & _).
  unfold has_session_object in *. simpl. rewrite Hu, Hs. exact Hinv.
Qed.

Lemma relogin_has_session old_token h :
  has_session_object h ->
  has_session_object (snd (relogin K server b64decode old_token h)).
Proof.
  intros Hinv. destruct (url h) as [base |] eqn:Hu.
  - destruct (session h) as [s |] eqn:Hs.
    + destruct (py_eqb old_token (iBaseToken s)) eqn:Ht.
      * rewrite (relogin_same_token _ _ Hu Hs Ht), snd_login_as_bool.
        apply login_has_session, logout_has_session, Hinv.
      * rewrite (relogin_other_token _ _ Hu Hs Ht). exact Hinv.
    + rewrite (relogin_without_session _ _ Hu Hs). exact Hinv.
  - rewrite (relogin_without_url _ _ Hu), snd_login_as_bool.
    apply login_has_session, Hinv.
Qed.

Lemma relogin_returns old_token h :
  has_session_object h ->
  exists usable h', relogin K server b64decode old_token h = (Returns usable, h').
Proof.
  intros Hinv. destruct (url h) as [base |] eqn:Hu.
  - destruct (session h) as [s |] eqn:Hs.
    + destruct (py_eqb old_token (iBaseToken s)) eqn:Ht.
      * rewrite (relogin_same_token _ _ Hu Hs Ht). unfold login_as_bool.
        destruct (login K server b64decode _) as [[[] | e] h1]; eauto.
      * rewrite (relogin_other_token _ _ Hu Hs Ht). eauto.
    + exfalso. apply Hinv; [rewrite Hu; discriminate | exact Hs].
  - rewrite (relogin_without_url _ _ Hu). unfold login_as_bool.
    destruct (login K server b64decode _) as [[[] | e] h1]; eauto.
Qed.

(** X6.  A helper with a base URL has a session object: so it is after
    construction, and [init_http_head], [do_call], [login], [logout],
    [relogin] and [call] keep it so, whatever they return or raise. *)
Theorem session_object_behind_url :
  (forall a u p v c, has_session_object (__init__ a u p v c))
  /\ (forall h, has_session_object (snd (init_http_head h)))
  /\ (forall postfix_url method data timeout h,
        has_session_object h ->
        has_session_object (snd (do_call K server postfix_url method data timeout h)))
  /\ (forall h, has_session_object h ->
        has_session_object (snd (login K server b64decode h)))
  /\ (forall h, has_session_object h ->
        has_session_object (snd (logout K server h)))
  /\ (forall old_token h, has_session_object h ->
        has_session_object (snd (relogin K server b64decode old_token h)))
  /\ (forall postfix_url method data timeout h,
        has_session_object h ->
        has_session_object
          (snd (call K server b64decode postfix_url method data timeout h))).
Proof.
  split; [| split; [| split; [| split; [| split; [| split]]]]].
  - intros a u p v c Hu. exfalso. apply Hu. reflexivity.
  - intros h _. discriminate.
  - apply do_call_has_session.
  - apply login_has_session.
  - apply logout_has_session.
  - apply relogin_has_session.
  - apply (call_preserves has_session_object).
    + apply do_call_has_session.
    + apply relogin_has_session.
Qed.

Lemma call_tail_raises_json
    postfix_url method data timeout old_token result h1 e h' :
  has_session_object h1 ->
  call_tail postfix_url method data timeout old_token result h1 = (Raises e, h') ->
  e = JSONDecodeError.
Proof.
  intros Hinv. unfold call_tail.
  destruct (code_in _ _); [| discriminate].
  destruct (relogin_returns old_token Hinv) as (usable & h2 & Hre). rewrite Hre.
  destruct usable; [| discriminate].
  destruct (relogin_true_session _ _ Hre) as (base2 & s2 & Hu2 & Hs2).
  rewrite (do_call_eq _ _ _ _ _ Hu2 Hs2). cbv zeta.
  destruct (reply_envelope _); intros H; inversion H; reflexivity.
Qed.

(** X7.  Against an array whose JSON bodies are envelopes (an integer
    [error.code], [data] absent or an object), on a helper that has a
    session object behind its base URL, the one exception [call] can raise
    is that of [res.json()].  Error codes,
    refused connections, rejected statuses and failed logins all come
    back as envelopes. *)
Theorem call_raises_only_for_unparsable_body
    postfix_url method data timeout h e h' :
  has_session_object h ->
  call K server b64decode postfix_url method data timeout h = (Raises e, h') ->
  e = JSONDecodeError.
Proof.
  intros Hinv. destruct (url_truthy (url h)) eqn:Ht.
  - destruct (url h) as [base |] eqn:Hu; [| discriminate Ht].
    destruct (session h) as [s |] eqn:Hs;
      [| exfalso; apply Hinv; [rewrite Hu; discriminate | exact Hs]].
    assert (Ht' : url_truthy (url h) = true) by (rewrite Hu; exact Ht).
    rewrite (call_with_url _ _ _ _ _ Ht' Hs), (do_call_eq _ _ _ _ _ Hu Hs).
    cbv zeta. destruct (reply_envelope _) as [r1 |].
    + apply call_tail_raises_json.
      unfold has_session_object. simpl. rewrite Hu, Hs. discriminate.
    + intros H; inversion H; reflexivity.
  - rewrite (call_without_url _ _ _ _ _ Ht).
    apply call_tail_raises_json. exact Hinv.
Qed.

(** X8.  An answer whose code is not one of [RELOGIN_ERROR_CODE] (a
    success, an error of the array, a rejected status, a refused
    connection) is what [call] returns, as it is: one request has gone
    out, with the token held, and base URL and session are what they
    were. *)
Theorem call_returns_other_codes_as_they_are
    postfix_url method data timeout h base s r :
  url h = Some base -> base <> "" -> session h = Some s ->
  let rq := outgoing base (iBaseToken s) postfix_url method data
              (timeout_of K timeout) in
  reply_envelope (server (sent h) rq) = Some r ->
  code_in (_error_code r) (RELOGIN_ERROR_CODE K) = false ->
  exists h',
    call K server b64decode postfix_url method data timeout h = (Returns r, h')
    /\ sent h' = sent h ++ [rq]
    /\ req_token rq = token h
    /\ url h' = url h /\ session h' = session h.
Proof.
  intros Hu Hb Hs rq Hr Hc. exists (put_on_wire rq h).
  split; [apply (call_plain _ _ _ _ _ Hu (str_truthy_neq Hb) Hs Hr Hc) |].
  split; [reflexivity |].
  split; [unfold token; rewrite Hs; reflexivity |].
  split; reflexivity.
Qed.

Lemma login_loop_unreachable username password addresses :
  unreachable -> ERROR_CONNECT_TO_SERVER K <> 0 ->
  forall h, exists e h',
    login_loop K server username password addresses h = (Raises e, h').
Proof.
  intros Hdown Hcode.
  induction addresses as [| item_url rest IH]; intros h.
  - simpl. unfold raise. eauto.
  - rewrite login_loop_cons. cbv zeta.
    destruct (Hdown (sent h) (login_request username password item_url))
      as [err Herr].
    rewrite Herr. simpl reply_envelope. cbv iota.
    change (_error_code (connect_failure K)) with (ERROR_CONNECT_TO_SERVER K).
    apply Z.eqb_neq in Hcode. rewrite Hcode. simpl negb. cbv iota.
    apply IH.
Qed.

Lemma login_unreachable h :
  unreachable -> ERROR_CONNECT_TO_SERVER K <> 0 ->
  exists e h', login K server b64decode h = (Raises e, h').
Proof.
  intros Hdown Hcode. rewrite login_eq.
  destruct (fst (_get_user_info b64decode h)) as [ui | e]; [| eauto].
  apply login_loop_unreachable; assumption.
Qed.

(** X9.  While the array cannot be reached (and the connect-failure code
    is not 0), [call] raises nothing: on a helper that holds a session it
    returns the connect-failure envelope, on a helper without a base URL
    the [unauthorized] one, whether or not these codes ask for a
    relogin. *)
Theorem call_while_array_is_unreachable postfix_url method data timeout h :
  unreachable -> ERROR_CONNECT_TO_SERVER K <> 0 ->
  (forall base s,
     url h = Some base -> base <> "" -> session h = Some s ->
     fst (call K server b64decode postfix_url method data timeout h)
     = Returns (connect_failure K))
  /\
  (url h = None ->
     fst (call K server b64decode postfix_url method data timeout h)
     = Returns (unauthorized K)).
Proof.
  intros Hdown Hcode. split.
  - intros base s Hu Hb Hs.
    assert (Ht : url_truthy (url h) = true)
      by (rewrite Hu; apply str_truthy_neq; exact Hb).
    rewrite (call_with_url _ _ _ _ _ Ht Hs), (do_call_eq _ _ _ _ _ Hu Hs).
    cbv zeta.
    destruct (Hdown (sent h)
                (outgoing base (iBaseToken s) postfix_url method data
                   (timeout_of K timeout))) as [err Herr].
    rewrite Herr. simpl reply_envelope. cbv iota. unfold call_tail.
    destruct (code_in _ _); [| reflexivity].
    rewrite (@relogin_same_token (iBaseToken s) _ base s)
      by (first [exact Hu | exact Hs | apply py_eqb_eq; reflexivity]).
    match goal with
    | |- context [login K server b64decode ?h0] =>
        destruct (login_unreachable h0 Hdown Hcode) as (e & h2 & Hl); rewrite Hl
    end.
    reflexivity.
  - intros Hu.
    assert (Ht : url_truthy (url h) = false) by (rewrite Hu; reflexivity).
    rewrite (call_without_url _ _ _ _ _ Ht). unfold call_tail.
    destruct (code_in _ _); [| reflexivity].
    rewrite (relogin_without_url _ _ Hu).
    destruct (login_unreachable h Hdown Hcode) as (e & h2 & Hl). rewrite Hl.
    reflexivity.
Qed.

(** X10.  After a [relogin] that reported success and left a token other
    than [old_token], a second [relogin] with the same [old_token] reports
    success at once: nothing is sent and the helper stays as it is. *)
Theorem relogin_again_with_stale_token old_token h h2 :
  relogin K server b64decode old_token h = (Returns true, h2) ->
  token h2 <> old_token ->
  relogin K server b64decode old_token h2 = (Returns true, h2).
Proof.
  intros Hre Hne.
  destruct (relogin_true_session _ _ Hre) as (base2 & s2 & Hu2 & Hs2).
  apply (relogin_other_token _ _ Hu2 Hs2).
  destruct (py_eqb old_token (iBaseToken s2)) eqn:E; [| reflexivity].
  apply py_eqb_eq in E. exfalso. apply Hne. unfold token. rewrite Hs2.
  symmetry. exact E.
Qed.

(** *** What has been sent stays sent *)

Lemma do_call_extends postfix_url method data timeout h :
  exists later,
    sent (snd (do_call K server postfix_url method data timeout h))
    = sent h ++ later.
Proof.
  destruct (url h) as [base |] eqn:Hu.
  - destruct (session h) as [s |] eqn:Hs.
    + rewrite (do_call_eq _ _ _ _ _ Hu Hs). cbv zeta. eexists. reflexivity.
    + exists []. unfold do_call. py_unfold. rewrite Hu, Hs.
      simpl. rewrite app_nil_r. reflexivity.
  - exists []. unfold do_call. py_unfold. rewrite Hu.
    simpl. rewrite app_nil_r. reflexivity.
Qed.

Lemma logout_extends h :
  exists later, sent (snd (logout K server h)) = sent h ++ later.
Proof.
  rewrite logout_eq. destruct (url_truthy (url h)).
  - destruct (do_call_extends "/sessions" DELETE None (SOCKET_TIMEOUT K) h)
      as (later & Hl).
    exists later.
    destruct (do_call K server "/sessions" DELETE None (SOCKET_TIMEOUT K) h)
      as [[r | e] h1]; simpl in Hl; [| exact Hl].
    rewrite assert_result_eq. destruct (_error_code r =? 0); exact Hl.
  - exists []. simpl. rewrite app_nil_r. reflexivity.
Qed.

Lemma login_extends h :
  exists later, sent (snd (login K server b64decode h)) = sent h ++ later.
Proof.
  rewrite login_eq. destruct (fst (_get_user_info b64decode h)) as [ui | e].
  - destruct (login_loop K server (fst ui) (snd ui) (nas_address h) h)
      as [o h'] eqn:Hl.
    destruct (login_loop_sends _ _ _ _ Hl) as (n & closing & Hsent & _).
    eexists. exact Hsent.
  - exists []. simpl. rewrite app_nil_r. reflexivity.
Qed.

Lemma relogin_extends old_token h :
  exists later,
    sent (snd (relogin K server b64decode old_token h)) = sent h ++ later.
Proof.
  destruct (url h) as [base |] eqn:Hu.
  - destruct (session h) as [s |] eqn:Hs.
    + destruct (py_eqb old_token (iBaseToken s)) eqn:Ht.
      * rewrite (relogin_same_token _ _ Hu Hs Ht), snd_login_as_bool.
        destruct (logout_extends h) as (l1 & H1).
        destruct (login_extends (snd (logout K server h))) as (l2 & H2).
        exists (l1 ++ l2). rewrite H2, H1, app_assoc. reflexivity.
      * rewrite (relogin_other_token _ _ Hu Hs Ht).
        exists []. simpl. rewrite app_nil_r. reflexivity.
    + rewrite (relogin_without_session _ _ Hu Hs).
      exists []. simpl. rewrite app_nil_r. reflexivity.
  - rewrite (relogin_without_url _ _ Hu), snd_login_as_bool. apply login_extends.
Qed.

Lemma call_tail_extends postfix_url method data timeout old_token result h1 :
  exists later,
    sent (snd (call_tail postfix_url method data timeout old_token result h1))
    = sent h1 ++ later.
Proof.
  unfold call_tail. destruct (code_in _ _);
    [| exists []; simpl; rewrite app_nil_r; reflexivity].
  destruct (relogin_extends old_token h1) as (l1 & H1).
  destruct (relogin K server b64decode old_token h1) as [[[] | e] h2];
    simpl in H1; try (exists l1; exact H1).
  destruct (do_call_extends postfix_url method data (timeout_of K timeout) h2)
    as (l2 & H2).
  destruct (do_call K server postfix_url method data (timeout_of K timeout) h2)
    as [[r2 | e] h3]; simpl in H2;
    exists (l1 ++ l2); simpl; rewrite H2, H1, app_assoc; reflexivity.
Qed.

(** X21.  After a [login] over a non-empty endpoint list on which every
    endpoint answered with a non-zero code, the helper does not count as
    logged out: the next [call] does not make the local [unauthorized]
    envelope; its first request goes to the last endpoint tried (no device
    id in the URL) and carries no token. *)
Theorem call_after_failed_login_goes_on_the_wire
    h username password front last_url postfix_url method data timeout :
  fst (_get_user_info b64decode h) = Returns (username, password) ->
  nas_address h = front ++ [last_url] ->
  all_fail username password (nas_address h) h ->
  last_url <> "" ->
  let h' := snd (login K server b64decode h) in
  url h' = Some last_url
  /\ token h' = None
  /\ exists later,
       sent (snd (call K server b64decode postfix_url method data timeout h'))
       = sent h'
         ++ outgoing last_url None postfix_url method data (timeout_of K timeout)
         :: later.
Proof.
  intros Hui Ha Hfail Hne h'. subst h'.
  rewrite (@login_all_fail h username password Hui Hfail). simpl snd. rewrite Ha.
  destruct (after_failures_last username password front last_url h) as (Hu & Ht).
  cbv zeta in Hu, Ht.
  split; [exact Hu |]. split; [exact Ht |].
  set (h' := after_failures username password (front ++ [last_url]) h) in *.
  destruct (session h') as [s |] eqn:Hs.
  - assert (Htok : iBaseToken s = None)
      by (unfold token in Ht; rewrite Hs in Ht; exact Ht).
    assert (Htr : url_truthy (url h') = true)
      by (rewrite Hu; apply str_truthy_neq; exact Hne).
    rewrite (call_with_url _ _ _ _ _ Htr Hs), (do_call_eq _ _ _ _ _ Hu Hs).
    cbv zeta. rewrite Htok.
    set (rq := outgoing last_url None postfix_url method data (timeout_of K timeout)).
    destruct (reply_envelope _) as [r1 |].
    + destruct (call_tail_extends postfix_url method data timeout None r1
                  (put_on_wire rq h')) as (later & Hl).
      exists later. rewrite Hl. simpl. rewrite <- app_assoc. reflexivity.
    + exists []. reflexivity.
  - exfalso. unfold after_failures in h'. subst h'.
    rewrite fold_left_app in Hs. simpl in Hs. discriminate Hs.
Qed.

End RuntimeFacts.

(** ** The pager verified *)

Lemma range_loop_pages (K : constants) (P A : Type)
    (page : Z -> Z -> P -> list A) (params : P) (k : nat) :
  forall fuel range_start info_list asked,
  Forall (fun w => MAX_QUERY_COUNT K <= Z.of_nat (length (page_of page params w)))
         (windows (MAX_QUERY_COUNT K) range_start k) ->
  Z.of_nat (length (page_of page params
                      (range_start + Z.of_nat k * MAX_QUERY_COUNT K,
                       range_start + Z.of_nat k * MAX_QUERY_COUNT K
                       + MAX_QUERY_COUNT K)))
    < MAX_QUERY_COUNT K ->
  (k < fuel)%nat ->
  range_loop K (recording page) params fuel range_start info_list asked =
  (Returns (Some (info_list
                  ++ concat (map (page_of page params)
                               (windows (MAX_QUERY_COUNT K) range_start (S k))))),
   asked ++ windows (MAX_QUERY_COUNT K) range_start (S k)).
Proof.
  induction k as [| k IH]; intros fuel range_start info_list asked Hfull Hshort Hfuel.
  - destruct fuel as [| fuel]; [lia |].
    replace (range_start + Z.of_nat 0 * MAX_QUERY_COUNT K) with range_start
      in Hshort by lia.
    cbn [range_loop]. unfold bind, recording, ret.
    unfold page_of in Hshort. simpl fst in Hshort. simpl snd in Hshort.
    apply Z.ltb_lt in Hshort. rewrite Hshort.
    cbn [windows map concat]. unfold page_of. simpl fst. simpl snd.
    rewrite app_nil_r. reflexivity.
  - destruct fuel as [| fuel]; [lia |].
    inversion Hfull as [| w ws Hhead Htail]; subst.
    cbn [range_loop]. unfold bind, recording, ret.
    unfold page_of in Hhead. simpl fst in Hhead. simpl snd in Hhead.
    apply Z.ltb_ge in Hhead. rewrite Hhead.
    fold (recording page).
    rewrite (IH fuel (range_start + MAX_QUERY_COUNT K)); [| assumption | | lia].
    + cbn [windows map concat]. unfold page_of at 3. simpl fst. simpl snd.
      rewrite <- !app_assoc. reflexivity.
    + replace (range_start + MAX_QUERY_COUNT K + Z.of_nat k * MAX_QUERY_COUNT K)
        with (range_start + Z.of_nat (S k) * MAX_QUERY_COUNT K) by lia.
      exact Hshort.
Qed.

Lemma slice_250 (A : Type) (dataset : list A) :
  length dataset = 250%nat ->
  length (slice dataset 0 100) = 100%nat
  /\ length (slice dataset 100 200) = 100%nat
  /\ length (slice dataset 200 300) = 50%nat
  /\ slice dataset 0 100 ++ slice dataset 100 200 ++ slice dataset 200 300 = dataset.
Proof.
  intros Hlen. unfold slice.
  change (Z.to_nat (100 - 0)) with 100%nat.
  change (Z.to_nat (200 - 100)) with 100%nat.
  change (Z.to_nat (300 - 200)) with 100%nat.
  change (Z.to_nat 0) with 0%nat.
  change (Z.to_nat 100) with 100%nat.
  change (Z.to_nat 200) with 200%nat.
  rewrite !length_firstn, !length_skipn, Hlen.
  repeat split; try reflexivity.
  rewrite skipn_O.
  rewrite (@firstn_all2 A 100 (skipn 200 dataset))
    by (rewrite length_skipn, Hlen; apply Nat.leb_le; reflexivity).
  change 200%nat with (100 + 100)%nat. rewrite <- skipn_skipn.
  rewrite (firstn_skipn 100 (skipn 100 dataset)).
  apply firstn_skipn.
Qed.

Lemma slice_window (A : Type) (dataset : list A) (a m : nat) :
  slice dataset (Z.of_nat a) (Z.of_nat a + Z.of_nat m) = firstn m (skipn a dataset).
Proof.
  unfold slice.
  replace (Z.of_nat a + Z.of_nat m - Z.of_nat a) with (Z.of_nat m) by lia.
  rewrite !Nat2Z.id. reflexivity.
Qed.

Lemma range_loop_slices (K : constants) (A : Type) (dataset : list A) (m : nat) :
  MAX_QUERY_COUNT K = Z.of_nat m -> (0 < m)%nat ->
  forall k a fuel info_list asked,
  (k * m <= length dataset - a)%nat ->
  (length dataset - a < S k * m)%nat ->
  (k < fuel)%nat ->
  range_loop K
    (recording (fun range_start range_end (_ : unit) =>
                  slice dataset range_start range_end))
    tt fuel (Z.of_nat a) info_list asked =
  (Returns (Some (info_list ++ skipn a dataset)),
   asked ++ windows (MAX_QUERY_COUNT K) (Z.of_nat a) (S k)).
Proof.
  intros Hmax Hm.
  induction k as [| k IH]; intros a fuel info_list asked Hlow Hhigh Hfuel;
    (destruct fuel as [| fuel]; [lia |]);
    cbn [range_loop]; unfold bind, recording, ret; rewrite Hmax;
    rewrite slice_window, length_firstn, length_skipn.
  - replace (Z.of_nat (Nat.min m (length dataset - a)) <? Z.of_nat m) with true
      by (symmetry; apply Z.ltb_lt; lia).
    rewrite firstn_all2 by (rewrite length_skipn; lia).
    reflexivity.
  - replace (Z.of_nat (Nat.min m (length dataset - a)) <? Z.of_nat m) with false
      by (symmetry; apply Z.ltb_ge; lia).
    fold (recording (fun range_start range_end (_ : unit) =>
                       slice dataset range_start range_end)).
    replace (Z.of_nat a + Z.of_nat m) with (Z.of_nat (a + m)) by lia.
    rewrite (IH (a + m)%nat) by lia.
    rewrite <- !app_assoc.
    replace (skipn (a + m) dataset) with (skipn m (skipn a dataset))
      by (rewrite skipn_skipn; f_equal; lia).
    rewrite firstn_skipn. cbn [windows]. rewrite Hmax.
    replace (Z.of_nat a + Z.of_nat m) with (Z.of_nat (a + m)) by lia.
    reflexivity.
Qed.

(** X11.  For every dataset and every page size [MAX_QUERY_COUNT > 0], the
    pager over the slices of the dataset returns the dataset itself; it
    makes [len / MAX + 1] fetches (given that many rounds), so a dataset
    whose size is a multiple of the page size costs one more fetch, of an
    empty page. *)
Theorem pager_returns_the_dataset
    (K : constants) (A : Type) (dataset : list A) (fuel : nat) :
  0 < MAX_QUERY_COUNT K ->
  let fetches := S (length dataset / Z.to_nat (MAX_QUERY_COUNT K)) in
  (fetches <= fuel)%nat ->
  _get_info_by_range K
    (recording (fun range_start range_end (_ : unit) =>
                  slice dataset range_start range_end)) tt fuel []
  = (Returns (Some dataset), windows (MAX_QUERY_COUNT K) 0 fetches).
Proof.
  intros Hpos fetches Hfuel. subst fetches. unfold _get_info_by_range.
  set (m := Z.to_nat (MAX_QUERY_COUNT K)) in *.
  assert (Hmax : MAX_QUERY_COUNT K = Z.of_nat m) by (subst m; lia).
  assert (Hm : (0 < m)%nat) by lia.
  pose proof (Nat.div_mod_eq (length dataset) m) as Hdm.
  pose proof (Nat.mod_upper_bound (length dataset) m ltac:(lia)) as Hmod.
  assert (Hlow : (length dataset / m * m <= length dataset - 0)%nat) by nia.
  assert (Hhigh : (length dataset - 0 < S (length dataset / m) * m)%nat) by nia.
  exact (@range_loop_slices K A dataset m Hmax Hm (length dataset / m)%nat 0%nat
           fuel [] [] Hlow Hhigh Hfuel).
Qed.

(** X12.  The loop ends only on a short page: with a page function that
    always returns and never returns fewer than [MAX_QUERY_COUNT] items
    (any page function that returns, when [MAX_QUERY_COUNT <= 0]), no
    number of rounds brings the pager to its [break]. *)
Theorem pager_needs_a_short_page
    (K : constants) (St P A : Type)
    (func : Z -> Z -> P -> Py St (list A)) (params : P) :
  (forall range_start range_end st,
     exists info st',
       func range_start range_end params st = (Returns info, st')
       /\ MAX_QUERY_COUNT K <= Z.of_nat (length info)) ->
  forall fuel st,
    fst (_get_info_by_range K func params fuel st) = Returns None.
Proof.
  intros Hfull fuel. unfold _get_info_by_range.
  generalize 0 at 1. generalize (@nil A).
  induction fuel as [| fuel IH]; intros info_list range_start st.
  - reflexivity.
  - cbn [range_loop]. unfold bind, ret.
    destruct (Hfull range_start (range_start + MAX_QUERY_COUNT K) st)
      as (info & st' & Hf & Hlen).
    rewrite Hf. apply Z.ltb_ge in Hlen. rewrite Hlen. apply IH.
Qed.

(** C9.  The pager asks the page function for the windows
    [[0, MAX), [MAX, 2 MAX), ..] in turn, appends each page to the result
    in the order fetched, and stops at the first page with fewer than
    [MAX_QUERY_COUNT] items: when the first [k] pages are full and the next
    one is short, [k + 1] fetches are made and the result is the [k + 1]
    pages joined.  With [MAX_QUERY_COUNT = 100] and a page function that
    slices a dataset of 250 items, the fetches are [0, 100), [100, 200),
    [200, 300), of 100, 100 and 50 items, and the result is the dataset. *)
Theorem pager_fetches_until_short_page :
  (forall (K : constants) (P A : Type) (page : Z -> Z -> P -> list A)
          (params : P) (k fuel : nat),
     let size := MAX_QUERY_COUNT K in
     Forall (fun w => size <= Z.of_nat (length (page (fst w) (snd w) params)))
            (windows size 0 k) ->
     Z.of_nat (length (page (Z.of_nat k * size) (Z.of_nat k * size + size) params))
       < size ->
     (k < fuel)%nat ->
     _get_info_by_range K (recording page) params fuel [] =
     (Returns (Some (concat (map (fun w => page (fst w) (snd w) params)
                                 (windows size 0 (S k))))),
      windows size 0 (S k)))
  /\
  (forall (K : constants) (A : Type) (dataset : list A) (fuel : nat),
     MAX_QUERY_COUNT K = 100 ->
     length dataset = 250%nat ->
     (3 <= fuel)%nat ->
     let page := fun range_start range_end (_ : unit) =>
                   slice dataset range_start range_end in
     _get_info_by_range K (recording page) tt fuel [] =
       (Returns (Some dataset), [(0, 100); (100, 200); (200, 300)])
     /\ map (fun w => length (page (fst w) (snd w) tt))
            [(0, 100); (100, 200); (200, 300)] = [100; 100; 50]%nat).
Proof.
  assert (General : forall (K : constants) (P A : Type)
            (page : Z -> Z -> P -> list A) (params : P) (k fuel : nat),
     let size := MAX_QUERY_COUNT K in
     Forall (fun w => size <= Z.of_nat (length (page (fst w) (snd w) params)))
            (windows size 0 k) ->
     Z.of_nat (length (page (Z.of_nat k * size) (Z.of_nat k * size + size) params))
       < size ->
     (k < fuel)%nat ->
     _get_info_by_range K (recording page) params fuel [] =
     (Returns (Some (concat (map (fun w => page (fst w) (snd w) params)
                                 (windows size 0 (S k))))),
      windows size 0 (S k))).
  { intros K P A page params k fuel size Hfull Hshort Hfuel.
    unfold _get_info_by_range.
    exact (@range_loop_pages K P A page params k fuel 0 [] [] Hfull Hshort Hfuel). }
  split; [exact General |].
  intros K A dataset fuel Hmax Hlen Hfuel page.
  destruct (slice_250 dataset Hlen) as (L0 & L1 & L2 & Hjoin).
  split.
  - rewrite (General K unit A page tt 2%nat fuel); rewrite ?Hmax.
    + simpl windows. simpl map. simpl concat. rewrite app_nil_r.
      subst page. simpl. rewrite Hjoin. reflexivity.
    + simpl windows. subst page. simpl fst. simpl snd.
      repeat constructor; simpl fst; simpl snd.
      * change (0 + 100) with 100. rewrite L0. lia.
      * change (0 + 100 + 100) with 200. change (0 + 100) with 100.
        rewrite L1. lia.
    + subst page. cbv beta. change (Z.of_nat 2 * 100) with 200.
      change (200 + 100) with 300. rewrite L2. lia.
    + lia.
  - subst page. simpl map. rewrite L0, L1, L2. reflexivity.
Qed.

(** ** The operations verified *)

(** X13.  [_is_needed_change_access] says a change is needed exactly when
    the access carries [ACCESSVAL] or [PERMISSION] with a value other than
    the level asked for.  So the empty dict needs none, and a level the
    array reports as an integer always differs from a level given as a
    string. *)
Theorem access_change_needed_iff (share_access : dict) (access_level : value) :
  (_is_needed_change_access share_access access_level = true <->
   (exists v, dict_get share_access "ACCESSVAL" = Some v /\ v <> access_level)
   \/ (exists v, dict_get share_access "PERMISSION" = Some v /\ v <> access_level))
  /\ _is_needed_change_access [] access_level = false
  /\ (forall n level,
        dict_get share_access "ACCESSVAL" = Some (VInt n) ->
        _is_needed_change_access share_access (VStr level) = true).
Proof.
  assert (Hneq : forall v, negb (value_eqb v access_level) = true <-> v <> access_level).
  { intros v. destruct (value_eqb v access_level) eqn:E; simpl.
    - apply value_eqb_eq in E. split; [discriminate | intros H; contradiction].
    - split; [| reflexivity]. intros _ Heq.
      apply value_eqb_eq in Heq. congruence. }
  split; [| split].
  - unfold _is_needed_change_access, dict_has.
    destruct (dict_get share_access "ACCESSVAL") as [a |];
      destruct (dict_get share_access "PERMISSION") as [p |]; simpl.
    + destruct (negb (value_eqb a access_level)) eqn:Ea.
      * split; [| reflexivity]. intros _. left. exists a.
        split; [reflexivity | apply Hneq; exact Ea].
      * destruct (negb (value_eqb p access_level)) eqn:Ep.
        -- split; [| reflexivity]. intros _. right. exists p.
           split; [reflexivity | apply Hneq; exact Ep].
        -- split; [discriminate |].
           intros [(v & Hv & Hd) | (v & Hv & Hd)]; inversion Hv; subst v;
             apply Hneq in Hd; congruence.
    + destruct (negb (value_eqb a access_level)) eqn:Ea.
      * split; [| reflexivity]. intros _. left. exists a.
        split; [reflexivity | apply Hneq; exact Ea].
      * split; [discriminate |].
        intros [(v & Hv & Hd) | (v & Hv & Hd)]; [| discriminate Hv].
        inversion Hv; subst v. apply Hneq in Hd. congruence.
    + destruct (negb (value_eqb p access_level)) eqn:Ep.
      * split; [| reflexivity]. intros _. right. exists p.
        split; [reflexivity | apply Hneq; exact Ep].
      * split; [discriminate |].
        intros [(v & Hv & Hd) | (v & Hv & Hd)]; [discriminate Hv |].
        inversion Hv; subst v. apply Hneq in Hd. congruence.
    + split; [discriminate |].
      intros [(v & Hv & _) | (v & Hv & _)]; discriminate Hv.
  - reflexivity.
  - intros n level Ha. unfold _is_needed_change_access, dict_has.
    rewrite Ha. reflexivity.
Qed.

Section CatalogFacts.

Variable K : constants.
Variable server : list request -> request -> reply.
Variable b64decode : string -> option string.
Variable C : catalog_codes.

(** X14.  With a session held and an answer that asks for no relogin,
    [create_filesystem] sends one [POST /filesystem] with [fs_param] as
    body; on code 0, with [data] absent or an object, it returns the [ID]
    of the answer, [None] when the answer has none, and on any other code
    it raises
    [ShareBackendException] with the envelope. *)
Theorem create_filesystem_returns_the_id fs_param h base s r :
  url h = Some base -> base <> "" -> session h = Some s ->
  let rq := outgoing base (iBaseToken s) "/filesystem" POST (Some fs_param)
              (SOCKET_TIMEOUT K) in
  reply_envelope K (server (sent h) rq) = Some r ->
  code_in (_error_code r) (RELOGIN_ERROR_CODE K) = false ->
  (_error_code r = 0 ->
     create_filesystem K server b64decode fs_param h =
     (Returns (data_get r "ID"), put_on_wire rq h))
  /\
  (_error_code r <> 0 ->
     create_filesystem K server b64decode fs_param h =
     (Raises (ShareBackendException
                (assert_message "Create filesystem %s error.") (Some r)),
      put_on_wire rq h)).
Proof.
  intros Hu Hb Hs rq Hr Hc. unfold create_filesystem. py_unfold.
  rewrite (@call_plain K server b64decode "/filesystem" POST (Some fs_param) None
             h base s r Hu (str_truthy_neq Hb) Hs Hr Hc).
  rewrite assert_result_eq. split; intros Hz.
  - rewrite Hz. reflexivity.
  - apply Z.eqb_neq in Hz. rewrite Hz. reflexivity.
Qed.

(** X15.  When the session had to be renewed and the retry of
    [POST /filesystem] answers with [RELOGIN_ERROR_PASS] and [data]
    absent or an object, [create_filesystem] does not raise: it returns
    the [ID] of that answer, which is [None] when the answer carries no
    data. *)
Theorem create_filesystem_after_silent_success fs_param h s r1 h1 h2 r2 h3 :
  url_truthy (url h) = true -> session h = Some s ->
  do_call K server "/filesystem" POST (Some fs_param) (SOCKET_TIMEOUT K) h
    = (Returns r1, h1) ->
  code_in (_error_code r1) (RELOGIN_ERROR_CODE K) = true ->
  relogin K server b64decode (iBaseToken s) h1 = (Returns true, h2) ->
  do_call K server "/filesystem" POST (Some fs_param) (SOCKET_TIMEOUT K) h2
    = (Returns r2, h3) ->
  _error_code r2 = RELOGIN_ERROR_PASS K ->
  create_filesystem K server b64decode fs_param h
    = (Returns (data_get r2 "ID"), h3)
  /\ (data r2 = None ->
      create_filesystem K server b64decode fs_param h = (Returns None, h3)).
Proof.
  intros Hu Hs Hdc Hc Hre Hdc2 Hpass.
  assert (Hcf : create_filesystem K server b64decode fs_param h
                = (Returns (data_get r2 "ID"), h3)).
  { unfold create_filesystem. py_unfold.
    rewrite (@call_with_url K server b64decode "/filesystem" POST (Some fs_param)
               None h s Hu Hs).
    change (timeout_of K None) with (SOCKET_TIMEOUT K).
    rewrite Hdc. unfold call_tail. rewrite Hc, Hre.
    change (timeout_of K None) with (SOCKET_TIMEOUT K).
    rewrite Hdc2. unfold retry_result. rewrite Hpass, Z.eqb_refl.
    reflexivity. }
  split; [exact Hcf |].
  intros Hd. rewrite Hcf. unfold data_get. rewrite Hd. reflexivity.
Qed.

(** X16.  Deleting a snapshot that is not there is not an error: with a
    session held and an answer that asks for no relogin, [delete_snapshot]
    sends one [DELETE /FSSNAPSHOT/<id>] and returns on code 0 and on
    [SNAPSHOT_NOT_EXIST]; on any other code it raises
    [ShareBackendException] with the envelope. *)
Theorem delete_snapshot_tolerates_missing snap_id h base s r :
  url h = Some base -> base <> "" -> session h = Some s ->
  let rq := outgoing base (iBaseToken s) ("/FSSNAPSHOT/" ++ snap_id)%string
              DELETE None (SOCKET_TIMEOUT K) in
  reply_envelope K (server (sent h) rq) = Some r ->
  code_in (_error_code r) (RELOGIN_ERROR_CODE K) = false ->
  (_error_code r = 0 \/ _error_code r = SNAPSHOT_NOT_EXIST C ->
     delete_snapshot K server b64decode C snap_id h
     = (Returns tt, put_on_wire rq h))
  /\
  (_error_code r <> 0 -> _error_code r <> SNAPSHOT_NOT_EXIST C ->
     delete_snapshot K server b64decode C snap_id h
     = (Raises (ShareBackendException
                  (assert_message "Delete snapshot %s error.") (Some r)),
        put_on_wire rq h)).
Proof.
  intros Hu Hb Hs rq Hr Hc. unfold delete_snapshot. py_unfold.
  rewrite (@call_plain K server b64decode ("/FSSNAPSHOT/" ++ snap_id)%string
             DELETE None None h base s r Hu (str_truthy_neq Hb) Hs Hr Hc).
  split.
  - intros [Hz | Hm].
    + destruct (_error_code r =? SNAPSHOT_NOT_EXIST C); [reflexivity |].
      rewrite assert_result_eq, Hz. reflexivity.
    + rewrite Hm, Z.eqb_refl. reflexivity.
  - intros Hz Hm. apply Z.eqb_neq in Hm. rewrite Hm.
    rewrite assert_result_eq. apply Z.eqb_neq in Hz. rewrite Hz. reflexivity.
Qed.

(** X17.  A filesystem that is not there: [delete_filesystem] returns as
    after a deletion, and [get_fs_info_by_id] returns [None], the same as
    for an answer with code 0 and no data (the data of an answer with
    code 0 is what it returns). *)
Theorem missing_filesystem_is_not_an_error h base s r :
  url h = Some base -> base <> "" -> session h = Some s ->
  code_in (_error_code r) (RELOGIN_ERROR_CODE K) = false ->
  (forall params,
     let rq := outgoing base (iBaseToken s) "/filesystem" DELETE (Some params)
                 (SOCKET_TIMEOUT K) in
     reply_envelope K (server (sent h) rq) = Some r ->
     _error_code r = FILESYSTEM_NOT_EXIST C ->
     delete_filesystem K server b64decode C params h
     = (Returns tt, put_on_wire rq h))
  /\
  (forall fs_id,
     let rq := outgoing base (iBaseToken s) ("/filesystem/" ++ fs_id)%string GET
                 None (SOCKET_TIMEOUT K) in
     reply_envelope K (server (sent h) rq) = Some r ->
     (_error_code r = FILESYSTEM_NOT_EXIST C ->
        get_fs_info_by_id K server b64decode C fs_id h
        = (Returns None, put_on_wire rq h))
     /\ (_error_code r = 0 -> FILESYSTEM_NOT_EXIST C <> 0 ->
         get_fs_info_by_id K server b64decode C fs_id h
         = (Returns (data r), put_on_wire rq h))).
Proof.
  intros Hu Hb Hs Hc. split.
  - intros params rq Hr Hm. unfold delete_filesystem. py_unfold.
    rewrite (@call_plain K server b64decode "/filesystem" DELETE (Some params)
               None h base s r Hu (str_truthy_neq Hb) Hs Hr Hc).
    rewrite Hm, Z.eqb_refl. reflexivity.
  - intros fs_id rq Hr. unfold get_fs_info_by_id. py_unfold.
    rewrite (@call_plain K server b64decode ("/filesystem/" ++ fs_id)%string GET
               None None h base s r Hu (str_truthy_neq Hb) Hs Hr Hc).
    split.
    + intros Hm. rewrite Hm, Z.eqb_refl. reflexivity.
    + intros Hz Hne. destruct (_error_code r =? FILESYSTEM_NOT_EXIST C) eqn:E.
      * apply Z.eqb_eq in E. exfalso. apply Hne. rewrite <- E. exact Hz.
      * rewrite assert_result_eq, Hz. reflexivity.
Qed.

(** X18.  When the array answers the deletion of a replication pair with
    [REPLICATION_CONNECTION_NOT_NORMAL], [delete_replication_pair] sends
    the deletion once more with [ISLOCALDELETE=true]; that second answer
    decides: code 0 and [REPLICATION_PAIR_NOT_EXIST] return, any other
    code (that asks for neither relogin nor another round) raises
    [ShareBackendException]. *)
Theorem delete_replication_pair_forces_local_delete
    pair_id is_force_delete fuel h base s r1 r2 :
  url h = Some base -> base <> "" -> session h = Some s ->
  let rq1 := outgoing base (iBaseToken s)
               (replication_pair_url pair_id is_force_delete) DELETE None
               (SOCKET_TIMEOUT K) in
  let rq2 := outgoing base (iBaseToken s)
               (replication_pair_url pair_id true) DELETE None
               (SOCKET_TIMEOUT K) in
  reply_envelope K (server (sent h) rq1) = Some r1 ->
  _error_code r1 = REPLICATION_CONNECTION_NOT_NORMAL C ->
  code_in (_error_code r1) (RELOGIN_ERROR_CODE K) = false ->
  reply_envelope K (server (sent h ++ [rq1]) rq2) = Some r2 ->
  code_in (_error_code r2) (RELOGIN_ERROR_CODE K) = false ->
  _error_code r2 <> REPLICATION_CONNECTION_NOT_NORMAL C ->
  (2 <= fuel)%nat ->
  let h2 := put_on_wire rq2 (put_on_wire rq1 h) in
  (_error_code r2 = 0 \/ _error_code r2 = REPLICATION_PAIR_NOT_EXIST C ->
     delete_replication_pair K server b64decode C fuel pair_id is_force_delete h
     = (Returns (Some tt), h2))
  /\
  (_error_code r2 <> 0 -> _error_code r2 <> REPLICATION_PAIR_NOT_EXIST C ->
     delete_replication_pair K server b64decode C fuel pair_id is_force_delete h
     = (Raises (ShareBackendException
                  (assert_message "Delete replication pair %s error.") (Some r2)),
        h2)).
Proof.
  intros Hu Hb Hs rq1 rq2 Hr1 Hn1 Hc1 Hr2 Hc2 Hn2 Hfuel h2.
  subst rq1 rq2 h2.
  destruct fuel as [| [| fuel]]; try lia.
  set (h2 := put_on_wire _ (put_on_wire _ h)).
  assert (Hstep :
    delete_replication_pair K server b64decode C (S (S fuel)) pair_id
      is_force_delete h
    = (if _error_code r2 =? REPLICATION_PAIR_NOT_EXIST C then (Returns (Some tt), h2)
       else match _assert_result r2 "Delete replication pair %s error." h2 with
            | (Returns _, h3) => (Returns (Some tt), h3)
            | (Raises e, h3) => (Raises e, h3)
            end)).
  { cbn [delete_replication_pair]. py_unfold.
    rewrite (@call_plain K server b64decode
               (replication_pair_url pair_id is_force_delete) DELETE None None
               h base s r1 Hu (str_truthy_neq Hb) Hs Hr1 Hc1).
    rewrite Hn1, Z.eqb_refl.
    match goal with
    | |- context [call K server b64decode ?u DELETE None None ?h1] =>
        rewrite (@call_plain K server b64decode u DELETE None None h1 base s r2
                   Hu (str_truthy_neq Hb) Hs Hr2 Hc2)
    end.
    apply Z.eqb_neq in Hn2. rewrite Hn2.
    destruct (_error_code r2 =? REPLICATION_PAIR_NOT_EXIST C); reflexivity. }
  rewrite Hstep. split.
  - intros [Hz | Hm].
    + destruct (_error_code r2 =? REPLICATION_PAIR_NOT_EXIST C); [reflexivity |].
      rewrite assert_result_eq, Hz. reflexivity.
    + rewrite Hm, Z.eqb_refl. reflexivity.
  - intros Hz Hm. apply Z.eqb_neq in Hm. rewrite Hm.
    rewrite assert_result_eq. apply Z.eqb_neq in Hz. rewrite Hz. reflexivity.
Qed.

(** X19.  [delete_replication_pair] has no bound on its rounds: while the
    array keeps answering [REPLICATION_CONNECTION_NOT_NORMAL] (a code that
    asks for no relogin), every nested call sends one more [DELETE] and
    calls again, so no depth of calls brings it to a [return]. *)
Theorem delete_replication_pair_may_not_settle pair_id :
  (forall history rq,
     exists r,
       reply_envelope K (server history rq) = Some r
       /\ _error_code r = REPLICATION_CONNECTION_NOT_NORMAL C) ->
  code_in (REPLICATION_CONNECTION_NOT_NORMAL C) (RELOGIN_ERROR_CODE K) = false ->
  forall fuel is_force_delete h base s,
    url h = Some base -> base <> "" -> session h = Some s ->
    exists h',
      delete_replication_pair K server b64decode C fuel pair_id is_force_delete h
      = (Returns None, h')
      /\ length (sent h') = (length (sent h) + fuel)%nat.
Proof.
  intros Hserver Hc fuel.
  induction fuel as [| fuel IH]; intros is_force_delete h base s Hu Hb Hs.
  - exists h. split; [reflexivity | lia].
  - cbn [delete_replication_pair]. py_unfold.
    set (rq := outgoing base (iBaseToken s)
                 (replication_pair_url pair_id is_force_delete) DELETE None
                 (SOCKET_TIMEOUT K)).
    destruct (Hserver (sent h) rq) as (r & Hr & Hn).
    assert (Hcr : code_in (_error_code r) (RELOGIN_ERROR_CODE K) = false)
      by (rewrite Hn; exact Hc).
    rewrite (@call_plain K server b64decode
               (replication_pair_url pair_id is_force_delete) DELETE None None
               h base s r Hu (str_truthy_neq Hb) Hs Hr Hcr).
    rewrite Hn, Z.eqb_refl.
    destruct (IH true (put_on_wire rq h) base s Hu Hb Hs) as (h' & Hrec & Hlen).
    exists h'. split; [exact Hrec |].
    rewrite Hlen. change (sent (put_on_wire rq h)) with (sent h ++ [rq]).
    rewrite length_app. simpl. lia.
Qed.

End CatalogFacts.

Lemma share_access_loop_ranges (A : Type) (page : Z * Z -> list A)
    share_id share_proto vstore_id n :
  forall a all_accesses asked,
  share_access_loop (recording_range page) share_id share_proto vstore_id
    (map Z.of_nat (seq a n)) all_accesses asked
  = (Returns (all_accesses
              ++ concat (map page (windows 100 (Z.of_nat a * 100) n))),
     asked ++ windows 100 (Z.of_nat a * 100) n).
Proof.
  induction n as [| n IH]; intros a all_accesses asked.
  - simpl. unfold ret. rewrite !app_nil_r. reflexivity.
  - cbn [seq map share_access_loop]. unfold bind, recording_range.
    fold (@recording_range A page).
    rewrite IH. cbn [windows map concat].
    replace ((Z.of_nat a + 1) * 100) with (Z.of_nat a * 100 + 100) by lia.
    replace (Z.of_nat (S a) * 100) with (Z.of_nat a * 100 + 100) by lia.
    rewrite <- !app_assoc. reflexivity.
Qed.

(** X20.  [get_all_share_access] asks for the count first.  With a count
    of 0 or less it asks for nothing more and returns the empty list.
    With a count above 0 it asks for [count // 100 + 1] ranges,
    [(0, 100), (100, 200), ..], and returns what they give, joined in that
    order: a count that is a multiple of 100 costs one range more than the
    count fills. *)
Theorem get_all_share_access_ranges (A : Type) (page : Z * Z -> list A)
    (count : Z) share_id share_proto vstore_id asked :
  (count <= 0 ->
     get_all_share_access (reporting count) (recording_range page)
       share_id share_proto vstore_id asked
     = (Returns [], asked))
  /\
  (0 < count ->
     let ranges := windows 100 0 (Z.to_nat (count / 100 + 1)) in
     get_all_share_access (reporting count) (recording_range page)
       share_id share_proto vstore_id asked
     = (Returns (concat (map page ranges)), asked ++ ranges)
     /\ length ranges = S (Z.to_nat (count / 100))).
Proof.
  split.
  - intros Hc. unfold get_all_share_access, reporting, bind, ret.
    apply Z.leb_le in Hc. rewrite Hc. reflexivity.
  - intros Hc ranges. subst ranges. split.
    + unfold get_all_share_access, reporting, bind, ret, py_range.
      replace (count <=? 0) with false by (symmetry; apply Z.leb_gt; exact Hc).
      exact (@share_access_loop_ranges A page share_id share_proto
               vstore_id (Z.to_nat (count / 100 + 1)) 0%nat [] asked).
    + assert (Hlen : forall size start n, length (windows size start n) = n).
      { intros size start n. revert start.
        induction n as [| n IHn]; intros start; simpl; [| rewrite IHn];
          reflexivity. }
      rewrite Hlen. pose proof (Z.div_pos count 100 ltac:(lia) ltac:(lia)).
      lia.
Qed.

(** ** Runs on the fixtures *)

(** On [server_session_expired] the first answer to a call sends the
    helper through [relogin]; the retry's code [RELOGIN_ERROR_PASS]
    comes back as 0. *)
Lemma call_retries_once_after_relogin_witness :
  exists r h3,
    call sample_constants server_session_expired sample_b64decode
      "/filesystem" GET None None logged_in_helper = (Returns r, h3)
    /\ _error_code r = 0
    /\ description (error r) = ""
    /\ data r = None.
Proof.
  edestruct (proj1
    (proj2 (proj1 (@call_retries_once_after_relogin sample_constants
                     server_session_expired sample_b64decode
                     "/filesystem" GET None None logged_in_helper
                     _ _ _ eq_refl eq_refl eq_refl eq_refl)
              _ eq_refl)
       _ _ eq_refl) eq_refl) as (r & Hcall & Hcode & Hdescr & Hdata).
  exists r. eexists. split; [exact Hcall |].
  split; [exact Hcode |]. split; [exact Hdescr | exact Hdata].
Defined.

(** With a stale token [relogin] reports success and touches nothing; with
    the token held it logs out and in again on [server_welcoming]. *)
Lemma relogin_three_way_witness :
  relogin sample_constants (server_welcoming 1) sample_b64decode
    (Some (VStr "stale")) logged_in_helper = (Returns true, logged_in_helper)
  /\ fst (relogin sample_constants (server_welcoming 1) sample_b64decode
            (Some (VStr "tok0")) logged_in_helper) = Returns true
  /\ token (snd (relogin sample_constants (server_welcoming 1) sample_b64decode
                   (Some (VStr "tok0")) logged_in_helper)) = Some (VStr "tok1").
Proof.
  split; [| split].
  - apply (proj1 (proj2 (proj2
             (@relogin_three_way sample_constants (server_welcoming 1)
                sample_b64decode (Some (VStr "stale")) logged_in_helper)))
             "https://a/dev" (mk_Session (Some (VStr "tok0")) None)
             eq_refl eq_refl).
    discriminate.
  - rewrite (proj1 (proj2
               (@relogin_three_way sample_constants (server_welcoming 1)
                  sample_b64decode (Some (VStr "tok0")) logged_in_helper))
               "https://a/dev" (mk_Session (Some (VStr "tok0")) None)
               eq_refl eq_refl eq_refl).
    reflexivity.
  - rewrite (proj1 (proj2
               (@relogin_three_way sample_constants (server_welcoming 1)
                  sample_b64decode (Some (VStr "tok0")) logged_in_helper))
               "https://a/dev" (mk_Session (Some (VStr "tok0")) None)
               eq_refl eq_refl eq_refl).
    reflexivity.
Defined.

(** C3, the claim as stated, fails: a freshly constructed helper holds
    neither base URL nor token; after a [login] on which its one endpoint
    answered with code 1 it holds the endpoint as base URL and no token. *)
Lemma failed_login_keeps_endpoint_as_url :
  let h' := snd (login sample_constants (server_code 1) sample_b64decode
                   sample_helper) in
  both_or_neither sample_helper
  /\ fst (login sample_constants (server_code 1) sample_b64decode sample_helper)
     = Raises (ShareBackendException "All url login fail." None)
  /\ url h' = Some "https://a/"
  /\ token h' = None
  /\ ~ both_or_neither h'.
Proof.
  cbv zeta. split; [split; reflexivity |].
  split; [reflexivity |]. split; [reflexivity |]. split; [reflexivity |].
  intros [_ H]. specialize (H eq_refl). discriminate H.
Qed.

(** The amended C3 on the same run. *)
Lemma token_held_implies_url_held_witness :
  exists h',
    login sample_constants (server_code 1) sample_b64decode sample_helper
    = (Raises (ShareBackendException "All url login fail." None), h')
    /\ url h' = Some "https://a/"
    /\ token h' = None.
Proof.
  apply (proj2 (proj2 (proj2 (proj2 (proj2
           (@token_held_implies_url_held sample_constants (server_code 1)
              sample_b64decode)))))
           sample_helper "user" "secret").
  - reflexivity.
  - discriminate.
  - intros before item_url after Heq. exists (envelope_of_code 1).
    split; [reflexivity | discriminate].
Defined.

(** C4, the claim as stated, fails: a session-delete answered with code 5
    makes [logout] raise. *)
Lemma logout_escalates_nonzero_code :
  url logged_in_helper = Some "https://a/dev"
  /\ server_code 5 (sent logged_in_helper)
       (logout_request sample_constants "https://a/dev" (Some (VStr "tok0")))
     = Http_ok (Some (envelope_of_code 5))
  /\ fst (logout sample_constants (server_code 5) logged_in_helper)
     = Raises (ShareBackendException
                 (assert_message "Logout session error.")
                 (Some (envelope_of_code 5))).
Proof. repeat split. Qed.

(** The amended C4 on the same run. *)
Lemma logout_raises_on_error_code_witness :
  logout sample_constants (server_code 5) logged_in_helper
  = (Raises (ShareBackendException
               (assert_message "Logout session error.")
               (Some (envelope_of_code 5))),
     put_on_wire
       (logout_request sample_constants "https://a/dev" (Some (VStr "tok0")))
       logged_in_helper).
Proof.
  apply (proj1 (proj2
           (@logout_raises_on_error_code sample_constants (server_code 5)
              sample_b64decode logged_in_helper "https://a/dev"
              (mk_Session (Some (VStr "tok0")) None)
              eq_refl ltac:(discriminate) eq_refl))
           (envelope_of_code 5) eq_refl).
  discriminate.
Defined.

(** Of four endpoints the first two fail and the third accepts: the base
    URL is made of the third, and the fourth is never asked. *)
Lemma login_tries_endpoints_in_order_witness :
  exists h',
    login sample_constants server_only_c sample_b64decode four_endpoints
    = (Returns tt, h')
    /\ url h' = Some "https://c/dev"
    /\ token h' = Some (VStr "tok1")
    /\ sent h' =
         map (login_request sample_constants "user" "secret")
           ["https://a/"; "https://b/"; "https://c/"].
Proof.
  destruct (proj2
    (@login_tries_endpoints_in_order sample_constants server_only_c
       sample_b64decode four_endpoints "user" "secret"
       ["https://a/"; "https://b/"] eq_refl
       ltac:(intros before item_url after Heq;
             destruct before as [| x [| y [| z before]]];
             inversion Heq; subst;
             (exists (envelope_of_code 1); split; [reflexivity | discriminate])))
    "https://c/" ["https://d/"] (welcome 1) "dev" eq_refl eq_refl eq_refl eq_refl)
    as (o & h' & Hlogin & Hurl & Htok & Hsent & Hout).
  exists h'. rewrite Hlogin, (Hout eq_refl).
  split; [reflexivity |]. split; [exact Hurl |]. split; [exact Htok |].
  exact Hsent.
Defined.

(** An accepted login with account state 3 ends in the password error,
    after the login request and one session-delete. *)
Lemma expired_password_is_fatal_witness :
  exists h',
    login sample_constants (server_welcoming 3) sample_b64decode sample_helper
    = (Raises (ShareBackendException
                 "Password has expired or initial, please change the password."
                 None), h')
    /\ sent h' =
         [login_request sample_constants "user" "secret" "https://a/";
          logout_request sample_constants "https://a/dev" (Some (VStr "tok1"))].
Proof.
  destruct (@expired_password_is_fatal sample_constants (server_welcoming 3)
              sample_b64decode sample_helper "user" "secret" [] "https://a/" []
              (welcome 3) "dev" eq_refl
              ltac:(intros before item_url after Heq;
                    destruct before; discriminate Heq)
              eq_refl eq_refl eq_refl eq_refl eq_refl)
    as (e & h' & Hlogin & Hsent & _ & Hexc).
  exists h'. rewrite Hlogin.
  rewrite (Hexc (envelope_of_code 0) eq_refl eq_refl eq_refl).
  split; [reflexivity | exact Hsent].
Defined.

(** A call on a helper that never logged in, with the array out of reach:
    the answer is the local [unauthorized] envelope. *)
Lemma call_without_base_url_is_unauthorized_witness :
  fst (call sample_constants server_down sample_b64decode
         "/filesystem" GET None None sample_helper)
  = Returns (unauthorized sample_constants).
Proof.
  rewrite (proj2
    (@call_without_base_url_is_unauthorized sample_constants server_down
       sample_b64decode "/filesystem" GET None None sample_helper eq_refl)
    eq_refl).
  reflexivity.
Defined.

(** C8, the claim as stated, fails: status 304 is not a 2xx status, and
    [do_call] makes no envelope of it; it returns the body, whose code is
    0 and not 304. *)
Lemma not_modified_is_not_an_envelope :
  server_not_modified (sent logged_in_helper)
    (outgoing "https://a/dev" (Some (VStr "tok0")) "/filesystem" GET None 52)
  = response_of
      (mk_http_response 304 "304 Not Modified" (Some (envelope_of_code 0)))
  /\ fst (do_call sample_constants server_not_modified "/filesystem" GET None 52
            logged_in_helper)
     = Returns (envelope_of_code 0)
  /\ fst (do_call sample_constants server_not_modified "/filesystem" GET None 52
            logged_in_helper)
     <> Returns (mk_envelope (mk_error 304 "304 Not Modified") None).
Proof.
  split; [reflexivity |]. split; [reflexivity |]. discriminate.
Qed.

(** A refused connection gives the connect-failure envelope, and status
    404 an envelope with code 404. *)
Lemma transport_failure_is_an_envelope_witness :
  do_call sample_constants server_down "/filesystem" GET None 52 logged_in_helper
  = (Returns (connect_failure sample_constants),
     put_on_wire
       (outgoing "https://a/dev" (Some (VStr "tok0")) "/filesystem" GET None 52)
       logged_in_helper)
  /\ fst (do_call sample_constants server_not_found "/filesystem" GET None 52
            logged_in_helper)
     = Returns (mk_envelope (mk_error 404 "404 Client Error") None).
Proof.
  split.
  - apply (proj1
      (@transport_failure_is_an_envelope sample_constants server_down
         sample_b64decode "/filesystem" GET None logged_in_helper)
      52 "https://a/dev" (mk_Session (Some (VStr "tok0")) None)
      "connection refused" eq_refl eq_refl eq_refl).
  - rewrite (proj1 (proj1 (proj2 (proj2
      (@transport_failure_is_an_envelope sample_constants server_not_found
         sample_b64decode "/filesystem" GET None logged_in_helper)))
      52 "https://a/dev" (mk_Session (Some (VStr "tok0")) None)
      (mk_http_response 404 "404 Client Error" None) eq_refl eq_refl eq_refl)
      ltac:(split; [apply Z.leb_le | apply Z.ltb_lt]; reflexivity)).
    reflexivity.
Defined.

(** A dataset of 250 items is fetched in three pages. *)
Lemma pager_fetches_until_short_page_witness :
  _get_info_by_range sample_constants
    (recording (fun range_start range_end (_ : unit) =>
                  slice (seq 0 250) range_start range_end)) tt 3 []
  = (Returns (Some (seq 0 250)), [(0, 100); (100, 200); (200, 300)]).
Proof.
  apply (proj1 (proj2 pager_fetches_until_short_page sample_constants nat
                  (seq 0 250) 3%nat eq_refl eq_refl (le_n 3))).
Defined.

(** A body that is not JSON makes [call] raise. *)
Lemma unparsable_body_propagates_witness :
  call sample_constants server_garbled sample_b64decode
    "/filesystem" GET None None logged_in_helper
  = (Raises JSONDecodeError,
     put_on_wire
       (outgoing "https://a/dev" (Some (VStr "tok0")) "/filesystem" GET None 52)
       logged_in_helper).
Proof.
  apply (proj1 (proj2
    (@unparsable_body_propagates sample_constants server_garbled
       sample_b64decode "/filesystem" GET None logged_in_helper
       "https://a/dev" (mk_Session (Some (VStr "tok0")) None) eq_refl eq_refl))
    None ltac:(discriminate) eq_refl).
Defined.

(** A user name that does not decode stops [login] before the wire. *)
Lemma login_needs_decodable_credentials_witness :
  login sample_constants server_down failing_b64decode obfuscated_helper
  = (Raises DecodeError, obfuscated_helper).
Proof.
  apply (proj2 (@login_needs_decodable_credentials sample_constants server_down
                  failing_b64decode obfuscated_helper)).
  left. split; reflexivity.
Defined.

(** A login on [server_welcoming]: one login request and nothing else. *)
Lemma login_sends_login_requests_in_order_witness :
  exists username password n closing,
    sent (snd (login sample_constants (server_welcoming 1) sample_b64decode
                 sample_helper))
    = sent sample_helper
      ++ map (login_request sample_constants username password)
           (firstn n (nas_address sample_helper))
      ++ closing
    /\ (closing = []
        \/ exists base tok e,
             closing = [logout_request sample_constants base tok]
             /\ Returns tt = Raises e).
Proof.
  apply (@login_sends_login_requests_in_order sample_constants
           (server_welcoming 1) sample_b64decode sample_helper (Returns tt)
           (snd (login sample_constants (server_welcoming 1) sample_b64decode
                   sample_helper))).
  reflexivity.
Defined.

(** An answer with code 0 and no data: [TypeError], URL the bare endpoint. *)
Lemma login_without_deviceid_witness :
  exists h',
    login sample_constants (server_code 0) sample_b64decode sample_helper
    = (Raises TypeError, h')
    /\ url h' = Some "https://a/"
    /\ token h' = None
    /\ sent h' = [login_request sample_constants "user" "secret" "https://a/"].
Proof.
  apply (@login_without_deviceid sample_constants (server_code 0)
           sample_b64decode sample_helper "user" "secret" [] "https://a/" []
           (envelope_of_code 0) eq_refl
           ltac:(intros before item_url after Heq;
                 destruct before; discriminate Heq)
           eq_refl eq_refl eq_refl).
  intros deviceid. discriminate.
Defined.

(** The first of four endpoints answers with text: the others stay untried. *)
Lemma login_stops_at_unparsable_answer_witness :
  exists h',
    login sample_constants server_garbled sample_b64decode four_endpoints
    = (Raises JSONDecodeError, h')
    /\ sent h' = [login_request sample_constants "user" "secret" "https://a/"].
Proof.
  destruct (@login_stops_at_unparsable_answer sample_constants server_garbled
              sample_b64decode four_endpoints "user" "secret" [] "https://a/"
              ["https://b/"; "https://c/"; "https://d/"] eq_refl
              ltac:(intros before item_url after Heq;
                    destruct before; discriminate Heq)
              eq_refl eq_refl)
    as (h' & Hlogin & Hsent & _).
  exists h'. split; [exact Hlogin | exact Hsent].
Defined.

(** After a [logout] that went well the helper holds what it held. *)
Lemma logout_keeps_url_and_token_witness :
  url (snd (logout sample_constants (server_code 0) logged_in_helper))
    = Some "https://a/dev"
  /\ token (snd (logout sample_constants (server_code 0) logged_in_helper))
     = Some (VStr "tok0").
Proof.
  destruct (@logout_keeps_url_and_token sample_constants (server_code 0)
              logged_in_helper (Returns tt)
              (snd (logout sample_constants (server_code 0) logged_in_helper))
              eq_refl) as (Hu & Ht & _).
  split; [exact Hu | exact Ht].
Defined.

(** A call on a fresh helper leaves a session object behind the URL. *)
Lemma session_object_behind_url_witness :
  has_session_object
    (snd (call sample_constants (server_welcoming 1) sample_b64decode
            "/filesystem" GET None None sample_helper)).
Proof.
  apply (proj2 (proj2 (proj2 (proj2 (proj2 (proj2
           (@session_object_behind_url sample_constants (server_welcoming 1)
              sample_b64decode))))))).
  intros Hu. exfalso. apply Hu. reflexivity.
Defined.

(** The exception of a call on [server_garbled] is the JSON one. *)
Lemma call_raises_only_for_unparsable_body_witness :
  exists e h',
    call sample_constants server_garbled sample_b64decode
      "/filesystem" GET None None logged_in_helper = (Raises e, h')
    /\ e = JSONDecodeError.
Proof.
  exists JSONDecodeError.
  exists (snd (call sample_constants server_garbled sample_b64decode
                 "/filesystem" GET None None logged_in_helper)).
  split; [reflexivity |].
  apply (@call_raises_only_for_unparsable_body sample_constants server_garbled
           sample_b64decode "/filesystem" GET None None logged_in_helper
           JSONDecodeError
           (snd (call sample_constants server_garbled sample_b64decode
                   "/filesystem" GET None None logged_in_helper))).
  - intros _. discriminate.
  - reflexivity.
Defined.

(** Code 7 asks for no relogin and comes back as it is. *)
Lemma call_returns_other_codes_as_they_are_witness :
  exists h',
    call sample_constants (server_code 7) sample_b64decode
      "/filesystem" GET None None logged_in_helper
    = (Returns (envelope_of_code 7), h')
    /\ length (sent h') = 1%nat.
Proof.
  destruct (@call_returns_other_codes_as_they_are sample_constants
              (server_code 7) sample_b64decode "/filesystem" GET None None
              logged_in_helper "https://a/dev"
              (mk_Session (Some (VStr "tok0")) None) (envelope_of_code 7)
              eq_refl ltac:(discriminate) eq_refl eq_refl eq_refl)
    as (h' & Hcall & Hsent & _).
  exists h'. split; [exact Hcall |]. rewrite Hsent. reflexivity.
Defined.

(** With the array down a call gives the connect-failure envelope. *)
Lemma call_while_array_is_unreachable_witness :
  fst (call sample_constants server_down sample_b64decode
         "/filesystem" GET None None logged_in_helper)
  = Returns (connect_failure sample_constants).
Proof.
  apply (proj1
    (@call_while_array_is_unreachable sample_constants server_down
       sample_b64decode "/filesystem" GET None None logged_in_helper
       ltac:(intros history rq; exists "connection refused"; reflexivity)
       ltac:(discriminate))
    "https://a/dev" (mk_Session (Some (VStr "tok0")) None) eq_refl
    ltac:(discriminate) eq_refl).
Defined.

(** A second [relogin] with the token the first one replaced does nothing. *)
Lemma relogin_again_with_stale_token_witness :
  let h2 := snd (relogin sample_constants (server_welcoming 1) sample_b64decode
                   (Some (VStr "tok0")) logged_in_helper) in
  relogin sample_constants (server_welcoming 1) sample_b64decode
    (Some (VStr "tok0")) h2 = (Returns true, h2).
Proof.
  cbv zeta.
  apply (@relogin_again_with_stale_token sample_constants (server_welcoming 1)
           sample_b64decode (Some (VStr "tok0")) logged_in_helper).
  - reflexivity.
  - discriminate.
Defined.

(** 200 items in pages of 100: three fetches, the last one empty. *)
Lemma pager_returns_the_dataset_witness :
  _get_info_by_range sample_constants
    (recording (fun range_start range_end (_ : unit) =>
                  slice (seq 0 200) range_start range_end)) tt 3 []
  = (Returns (Some (seq 0 200)), [(0, 100); (100, 200); (200, 300)]).
Proof.
  apply (@pager_returns_the_dataset sample_constants nat (seq 0 200) 3%nat).
  - reflexivity.
  - apply Nat.leb_le. reflexivity.
Defined.

(** A page function that always gives 100 items keeps the pager going. *)
Lemma pager_needs_a_short_page_witness :
  fst (_get_info_by_range sample_constants
         (recording (fun _ _ (_ : unit) => seq 0 100)) tt 5 [])
  = Returns None.
Proof.
  apply (@pager_needs_a_short_page sample_constants (list (Z * Z)) unit nat
           (recording (fun _ _ (_ : unit) => seq 0 100)) tt).
  intros range_start range_end st.
  exists (seq 0 100), (st ++ [(range_start, range_end)]).
  split; [reflexivity |]. apply Z.leb_le. reflexivity.
Defined.

(** The integer 1 is not the string "1". *)
Lemma access_change_needed_iff_witness :
  _is_needed_change_access [("ACCESSVAL", VInt 1)] (VStr "1") = true.
Proof.
  apply (proj2 (proj2 (access_change_needed_iff [("ACCESSVAL", VInt 1)]
                         (VStr "1"))) 1 "1").
  reflexivity.
Defined.

(** [create_filesystem] on [server_creating] returns the id 42. *)
Lemma create_filesystem_returns_the_id_witness :
  fst (create_filesystem sample_constants server_creating sample_b64decode
         [("NAME", VStr "fs")] logged_in_helper)
  = Returns (Some (VStr "42")).
Proof.
  rewrite (proj1
    (@create_filesystem_returns_the_id sample_constants server_creating
       sample_b64decode [("NAME", VStr "fs")] logged_in_helper "https://a/dev"
       (mk_Session (Some (VStr "tok0")) None)
       (mk_envelope (mk_error 0 "") (Some [("ID", VStr "42")]))
       eq_refl ltac:(discriminate) eq_refl eq_refl eq_refl) eq_refl).
  reflexivity.
Defined.

(** On [server_renewing] the retry is answered with [RELOGIN_ERROR_PASS]:
    [create_filesystem] returns no id and raises nothing. *)
Lemma create_filesystem_after_silent_success_witness :
  fst (create_filesystem sample_constants server_renewing sample_b64decode
         [("NAME", VStr "fs")] logged_in_helper)
  = Returns None.
Proof.
  rewrite (proj2
    (@create_filesystem_after_silent_success sample_constants server_renewing
       sample_b64decode [("NAME", VStr "fs")] logged_in_helper
       (mk_Session (Some (VStr "tok0")) None) _ _ _ _ _
       eq_refl eq_refl eq_refl eq_refl eq_refl eq_refl eq_refl) eq_refl).
  reflexivity.
Defined.

(** A snapshot that is not there is deleted without an error. *)
Lemma delete_snapshot_tolerates_missing_witness :
  fst (delete_snapshot sample_constants (server_code 1073754118) sample_b64decode
         sample_codes "9" logged_in_helper)
  = Returns tt.
Proof.
  rewrite (proj1
    (@delete_snapshot_tolerates_missing sample_constants (server_code 1073754118)
       sample_b64decode sample_codes "9" logged_in_helper "https://a/dev"
       (mk_Session (Some (VStr "tok0")) None) (envelope_of_code 1073754118)
       eq_refl ltac:(discriminate) eq_refl eq_refl eq_refl)
    (or_intror eq_refl)).
  reflexivity.
Defined.

(** A filesystem that is not there: no info, no error. *)
Lemma missing_filesystem_is_not_an_error_witness :
  fst (get_fs_info_by_id sample_constants (server_code 1073752065)
         sample_b64decode sample_codes "3" logged_in_helper)
  = Returns None.
Proof.
  rewrite (proj1 (proj2
    (@missing_filesystem_is_not_an_error sample_constants (server_code 1073752065)
       sample_b64decode sample_codes logged_in_helper "https://a/dev"
       (mk_Session (Some (VStr "tok0")) None) (envelope_of_code 1073752065)
       eq_refl ltac:(discriminate) eq_refl eq_refl) "3" eq_refl) eq_refl).
  reflexivity.
Defined.

(** Pair 7 goes away on the second, local, deletion. *)
Lemma delete_replication_pair_forces_local_delete_witness :
  exists h2,
    delete_replication_pair sample_constants server_pair_unlinked
      sample_b64decode sample_codes 2 "7" false logged_in_helper
    = (Returns (Some tt), h2)
    /\ map req_url (sent h2) =
         ["https://a/dev/REPLICATIONPAIR/7?ISLOCALDELETE=false";
          "https://a/dev/REPLICATIONPAIR/7?ISLOCALDELETE=true"].
Proof.
  eexists. split.
  - apply (proj1
      (@delete_replication_pair_forces_local_delete sample_constants
         server_pair_unlinked sample_b64decode sample_codes "7" false 2%nat
         logged_in_helper "https://a/dev" (mk_Session (Some (VStr "tok0")) None)
         (envelope_of_code 1077937923) (envelope_of_code 0)
         eq_refl ltac:(discriminate) eq_refl eq_refl eq_refl eq_refl eq_refl
         eq_refl ltac:(discriminate) (le_n 2))).
    left. reflexivity.
  - reflexivity.
Defined.

(** Five nested calls against an array that never settles: five requests
    and no end. *)
Lemma delete_replication_pair_may_not_settle_witness :
  exists h',
    delete_replication_pair sample_constants (server_code 1077937923)
      sample_b64decode sample_codes 5 "7" false logged_in_helper
    = (Returns None, h')
    /\ length (sent h') = 5%nat.
Proof.
  apply (@delete_replication_pair_may_not_settle sample_constants
           (server_code 1077937923) sample_b64decode sample_codes "7"
           ltac:(intros history rq; exists (envelope_of_code 1077937923);
                 split; reflexivity)
           eq_refl 5%nat false logged_in_helper "https://a/dev"
           (mk_Session (Some (VStr "tok0")) None) eq_refl
           ltac:(discriminate) eq_refl).
Defined.

(** A count of 200 asks for three ranges. *)
Lemma get_all_share_access_ranges_witness :
  get_all_share_access (reporting 200)
    (recording_range (fun query_range : Z * Z => [fst query_range]))
    "5" "NFS" None []
  = (Returns [0; 100; 200], [(0, 100); (100, 200); (200, 300)]).
Proof.
  apply (proj1 (proj2
    (@get_all_share_access_ranges Z (fun query_range : Z * Z => [fst query_range])
       200 "5" "NFS" None []) eq_refl)).
Defined.

(** After the one endpoint failed, the next call goes to it without a token. *)
Lemma call_after_failed_login_goes_on_the_wire_witness :
  let h' := snd (login sample_constants (server_code 1) sample_b64decode
                   sample_helper) in
  url h' = Some "https://a/"
  /\ token h' = None
  /\ exists later,
       sent (snd (call sample_constants (server_code 1) sample_b64decode
                    "/filesystem" GET None None h'))
       = sent h'
         ++ outgoing "https://a/" None "/filesystem" GET None 52 :: later.
Proof.
  apply (@call_after_failed_login_goes_on_the_wire sample_constants
           (server_code 1) sample_b64decode sample_helper "user" "secret" []
           "https://a/" "/filesystem" GET None None eq_refl eq_refl).
  - intros before item_url after Heq. exists (envelope_of_code 1).
    split; [reflexivity | discriminate].
  - discriminate.
Defined.
